(** * AWS cloud waste management: the inventory aggregator and its dashboard

    A shallow embedding of the Lambda handler (the aggregator) and of the
    dashboard's state handling ([src/api.ts], [src/App.tsx], [src/types.ts]),
    followed by the properties of the specification that were checked on it.

    Conventions.
    - A JavaScript value that may be [undefined] is an [option]; the falsy
      strings are [None] and the empty string.
    - A [throw], a rejected promise and a failed property access on
      [undefined] are the [Throw] outcome of [Js.result].
    - A call that leaves the process (an SDK request, an HTTP request, the
      confirmation dialog, the file download) is recorded in a log that the
      operation returns next to its result. *)

From Stdlib Require Import Floats ZArith.
From stdpp Require Import base option list strings.

(** ** JavaScript values and control flow *)

Module Js.

(** What a [catch] clause can receive.  [Rejection] is whatever a provider
    promise rejected with; its [message] property may be missing. *)
Inductive exn :=
| TypeError (msg : string)
| Error (msg : string)
| Rejection (msg : option string).

(** [error.message] *)
Definition message (e : exn) : option string :=
  match e with
  | TypeError msg => Some msg
  | Error msg => Some msg
  | Rejection msg => msg
  end.

Inductive result (A : Type) :=
| Ok (a : A)
| Throw (e : exn).
Arguments Ok {A} a.
Arguments Throw {A} e.

#[global] Instance result_ret : MRet result := fun A a => Ok a.
#[global] Instance result_bind : MBind result := fun A B f r =>
  match r with
  | Ok a => f a
  | Throw e => Throw e
  end.
#[global] Instance result_fmap : FMap result := fun A B f r =>
  match r with
  | Ok a => Ok (f a)
  | Throw e => Throw e
  end.

(** The value of [v] when it is truthy: a string that is neither
    undefined nor empty. *)
Definition truthy (v : option string) : option string :=
  match v with
  | Some s => if bool_decide (s = "") then None else Some s
  | None => None
  end.

(** [v || d] where [d] is a string. *)
Definition or_else (v : option string) (d : string) : string :=
  default d (truthy v).

(** [v || w] where [w] may itself be undefined. *)
Definition or (v w : option string) : option string :=
  match truthy v with
  | Some s => Some s
  | None => w
  end.

(** [o.find(...)] when [o] is undefined (the text is V8's). *)
Definition undefined_find : exn :=
  TypeError "Cannot read properties of undefined (reading 'find')".

End Js.

(** ** [src/types.ts] *)

Module Types.

Inductive AWSResourceType := EC2 | RDS | EBS | SNAPSHOT.

#[global] Instance AWSResourceType_eq_dec : EqDecision AWSResourceType.
Proof. solve_decision. Defined.

Record Details := {
  instanceType : option string;
  volumeSize : option Z;
  snapshotSize : option Z;
  engine : option string;
  volumeType : option string
}.

(** [region] is read from [process.env] and may be undefined there. *)
Record AWSResource := {
  id : string;
  type : AWSResourceType;
  name : string;
  region : option string;
  state : string;
  lastUsed : string;
  cost : float;
  details : Details
}.

Module ResourceTypeCount.
Record t := {
  type : AWSResourceType;
  count : nat;
  totalCost : float
}.
End ResourceTypeCount.

End Types.

(** ** The Lambda handler *)

Module Aggregator.

(** *** Shapes of the SDK's answers

    Only the members the handler reads.  A resource without tags reaches
    the handler with an empty [Tags] list, the SDK filling in the list; the
    [option] stands for a record built without the member, which the volume
    and snapshot normalisers allow for.  A tag's [Key] and [Value] may be
    missing from a tag. *)

Record Tag := { Key : option string; Value : option string }.

Module Filter.
Record t := { Name : string; Values : list string }.
End Filter.

Module InstanceState.
Record t := { Name : string }.
End InstanceState.

Module Instance.
Record t := {
  InstanceId : string;
  Tags : option (list Tag);
  State : InstanceState.t;
  LaunchTime : string;
  InstanceType : string
}.
End Instance.

Record Reservation := { Instances : list Instance.t }.
Record DescribeInstancesResult := { Reservations : list Reservation }.

Record DBInstance := {
  DBInstanceIdentifier : string;
  DBInstanceStatus : string;
  InstanceCreateTime : string;
  DBInstanceClass : string;
  Engine : string
}.
Record DescribeDBInstancesResult := { DBInstances : list DBInstance }.

Module Volume.
Record t := {
  VolumeId : string;
  Tags : option (list Tag);
  State : string;
  CreateTime : string;
  Size : Z;
  VolumeType : string
}.
End Volume.
Record DescribeVolumesResult := { Volumes : list Volume.t }.

Module Snapshot.
Record t := {
  SnapshotId : string;
  Tags : option (list Tag);
  State : string;
  StartTime : string;
  VolumeSize : Z
}.
End Snapshot.
Record DescribeSnapshotsResult := { Snapshots : list Snapshot.t }.

(** *** The provider

    The requests the handler can send, and one settled outcome per request:
    [ec2.describeInstances(..).promise()] and its three siblings. *)

Inductive ProviderCall :=
| DescribeInstances (Filters : list Filter.t)
| DescribeDBInstances
| DescribeVolumes (Filters : list Filter.t)
| DescribeSnapshots (OwnerIds : list string).

Record Provider := {
  describeInstances : list Filter.t -> Js.result DescribeInstancesResult;
  describeDBInstances : Js.result DescribeDBInstancesResult;
  describeVolumes : list Filter.t -> Js.result DescribeVolumesResult;
  describeSnapshots : list string -> Js.result DescribeSnapshotsResult;
  AWS_REGION : option string
}.

(** An [async] function that has been called: the requests it sent before
    its first [await], and what its promise settles to. *)
Record promise (A : Type) := {
  issued : list ProviderCall;
  outcome : Js.result A
}.
Arguments issued {A} p.
Arguments outcome {A} p.

(** [tags.find(tag => tag.Key === 'Name')] *)
Definition find_Name (tags : list Tag) : option Tag :=
  List.find (fun tag => bool_decide (Key tag = Some "Name")) tags.

(** *** The four normalisers: the arrow functions given to [map] *)

Definition ec2Resource (env : Provider) (instance : Instance.t)
  : Js.result Types.AWSResource :=
  tag ← match Instance.Tags instance with
        | Some tags => Js.Ok (find_Name tags)
        | None => Js.Throw Js.undefined_find
        end;
  Js.Ok {|
    Types.id := Instance.InstanceId instance;
    Types.type := Types.EC2;
    Types.name := Js.or_else (tag ≫= Value) (Instance.InstanceId instance);
    Types.region := AWS_REGION env;
    Types.state := InstanceState.Name (Instance.State instance);
    Types.lastUsed := Instance.LaunchTime instance;
    Types.cost := 0%float;
    Types.details := {|
      Types.instanceType := Some (Instance.InstanceType instance);
      Types.volumeSize := None;
      Types.snapshotSize := None;
      Types.engine := None;
      Types.volumeType := None
    |}
  |}.

Definition rdsResource (env : Provider) (instance : DBInstance)
  : Types.AWSResource :=
  {|
    Types.id := DBInstanceIdentifier instance;
    Types.type := Types.RDS;
    Types.name := DBInstanceIdentifier instance;
    Types.region := AWS_REGION env;
    Types.state := DBInstanceStatus instance;
    Types.lastUsed := InstanceCreateTime instance;
    Types.cost := 0%float;
    Types.details := {|
      Types.instanceType := Some (DBInstanceClass instance);
      Types.volumeSize := None;
      Types.snapshotSize := None;
      Types.engine := Some (Engine instance);
      Types.volumeType := None
    |}
  |}.

Definition ebsResource (env : Provider) (volume : Volume.t)
  : Types.AWSResource :=
  {|
    Types.id := Volume.VolumeId volume;
    Types.type := Types.EBS;
    Types.name :=
      Js.or_else ((Volume.Tags volume ≫= find_Name) ≫= Value)
                 (Volume.VolumeId volume);
    Types.region := AWS_REGION env;
    Types.state := Volume.State volume;
    Types.lastUsed := Volume.CreateTime volume;
    Types.cost := 0%float;
    Types.details := {|
      Types.instanceType := None;
      Types.volumeSize := Some (Volume.Size volume);
      Types.snapshotSize := None;
      Types.engine := None;
      Types.volumeType := Some (Volume.VolumeType volume)
    |}
  |}.

Definition snapshotResource (env : Provider) (snapshot : Snapshot.t)
  : Types.AWSResource :=
  {|
    Types.id := Snapshot.SnapshotId snapshot;
    Types.type := Types.SNAPSHOT;
    Types.name :=
      Js.or_else ((Snapshot.Tags snapshot ≫= find_Name) ≫= Value)
                 (Snapshot.SnapshotId snapshot);
    Types.region := AWS_REGION env;
    Types.state := Snapshot.State snapshot;
    Types.lastUsed := Snapshot.StartTime snapshot;
    Types.cost := 0%float;
    Types.details := {|
      Types.instanceType := None;
      Types.volumeSize := None;
      Types.snapshotSize := Some (Snapshot.VolumeSize snapshot);
      Types.engine := None;
      Types.volumeType := None
    |}
  |}.

(** *** The four queries

    Each sends its request when it is called and maps the answer after the
    [await]; a rejected request, or a normaliser that throws, rejects the
    query's promise. *)

Definition stopped_instances : list Filter.t :=
  [ {| Filter.Name := "instance-state-name"; Filter.Values := ["stopped"] |} ].

Definition available_volumes : list Filter.t :=
  [ {| Filter.Name := "status"; Filter.Values := ["available"] |} ].

Definition own_snapshots : list string := ["self"].

Definition getEC2Resources (env : Provider)
  : promise (list Types.AWSResource) :=
  {| issued := [DescribeInstances stopped_instances];
     outcome :=
       instances ← describeInstances env stopped_instances;
       @concat _ <$> mapM (fun reservation =>
                          mapM (ec2Resource env) (Instances reservation))
                       (Reservations instances) |}.

Definition getRDSResources (env : Provider)
  : promise (list Types.AWSResource) :=
  {| issued := [DescribeDBInstances];
     outcome :=
       instances ← describeDBInstances env;
       Js.Ok (rdsResource env <$>
                filter (fun instance => DBInstanceStatus instance = "stopped")
                       (DBInstances instances)) |}.

Definition getEBSResources (env : Provider)
  : promise (list Types.AWSResource) :=
  {| issued := [DescribeVolumes available_volumes];
     outcome :=
       volumes ← describeVolumes env available_volumes;
       Js.Ok (ebsResource env <$> Volumes volumes) |}.

Definition getSnapshots (env : Provider)
  : promise (list Types.AWSResource) :=
  {| issued := [DescribeSnapshots own_snapshots];
     outcome :=
       snapshots ← describeSnapshots env own_snapshots;
       Js.Ok (snapshotResource env <$> Snapshots snapshots) |}.

(** *** [Promise.all]

    All four promises exist, so all four requests were sent, before
    [Promise.all] runs.  It fulfils with the four values in array order when
    every promise fulfils, and otherwise rejects with the reason of the
    promise that rejected first.  Which one that is depends on timing:
    [settled] lists the queries in the order in which they settle, and a
    query it leaves out settles after those, in array order. *)

Inductive Source := FromEC2 | FromRDS | FromEBS | FromSnapshots.

Definition rejection {A} (p : promise A) : option Js.exn :=
  match outcome p with
  | Js.Throw e => Some e
  | Js.Ok _ => None
  end.

Definition Promise_all {A B C D} (settled : list Source)
    (p1 : promise A) (p2 : promise B) (p3 : promise C) (p4 : promise D)
  : promise (A * B * C * D) :=
  let rejection_of (s : Source) :=
    match s with
    | FromEC2 => rejection p1
    | FromRDS => rejection p2
    | FromEBS => rejection p3
    | FromSnapshots => rejection p4
    end in
  {| issued := issued p1 ++ issued p2 ++ issued p3 ++ issued p4;
     outcome :=
       match omap rejection_of
               (settled ++ [FromEC2; FromRDS; FromEBS; FromSnapshots]) with
       | e :: _ => Js.Throw e
       | [] =>
           a ← outcome p1; b ← outcome p2; c ← outcome p3; d ← outcome p4;
           Js.Ok (a, b, c, d)
       end |}.

(** *** The handler *)

Record Http := { method : option string }.
Record RequestContext := { http : option Http }.
Module PathParameters.
Record t := { id : option string }.
End PathParameters.

Record Event := {
  httpMethod : option string;
  requestContext : option RequestContext;
  pathParameters : option PathParameters.t
}.

(** The object handed to [JSON.stringify]; the preflight answer has the
    empty string for a body. *)
Inductive Payload :=
| Resources (resources : list Types.AWSResource)
| Message (message : string)
| ErrorMessage (error : string).

Inductive Body :=
| JSON_stringify (payload : Payload)
| Text (s : string).

Record Response := {
  statusCode : Z;
  headers : list (string * string);
  body : Body
}.

Definition cors_headers : list (string * string) :=
  [ ("Access-Control-Allow-Origin", "*");
    ("Access-Control-Allow-Methods", "GET, DELETE, OPTIONS");
    ("Access-Control-Allow-Headers", "Content-Type");
    ("Content-Type", "application/json") ].

Definition error_headers : list (string * string) :=
  [ ("Access-Control-Allow-Origin", "*");
    ("Content-Type", "application/json") ].

(** [event.httpMethod || event.requestContext?.http?.method] *)
Definition request_method (event : Event) : option string :=
  Js.or (httpMethod event)
        ((requestContext event ≫= http) ≫= method).

(** The body of the [try] block. *)
Definition handler_try (event : Event) (env : Provider)
    (settled : list Source) : promise Response :=
  let httpMethod := request_method event in
  if decide (httpMethod = Some "GET") then
    let all := Promise_all settled (getEC2Resources env)
                 (getRDSResources env) (getEBSResources env)
                 (getSnapshots env) in
    {| issued := issued all;
       outcome :=
         '(ec2Resources, rdsResources, ebsResources, snapshotResources)
           ← outcome all;
         let allResources :=
           ec2Resources ++ rdsResources ++ ebsResources
             ++ snapshotResources in
         Js.Ok {| statusCode := 200;
                  headers := cors_headers;
                  body := JSON_stringify (Resources allResources) |} |}
  else if decide (httpMethod = Some "DELETE") then
    let resourceId := pathParameters event ≫= PathParameters.id in
    {| issued := [];
       outcome :=
         match Js.truthy resourceId with
         | None => Js.Throw (Js.Error "Resource ID is required")
         | Some resourceId =>
             Js.Ok {| statusCode := 200;
                      headers := cors_headers;
                      body := JSON_stringify
                        (Message ("Resource " +:+ resourceId
                                    +:+ " deleted successfully")) |}
         end |}
  else if decide (httpMethod = Some "OPTIONS") then
    {| issued := [];
       outcome := Js.Ok {| statusCode := 200;
                           headers := cors_headers;
                           body := Text "" |} |}
  else
    {| issued := [];
       outcome := Js.Ok {| statusCode := 405;
                           headers := error_headers;
                           body := JSON_stringify
                             (ErrorMessage "Method not allowed") |} |}.

(** The answer of the [catch] clause. *)
Definition server_error (error : Js.exn) : Response :=
  {| statusCode := 500;
     headers := error_headers;
     body := JSON_stringify
       (ErrorMessage
          (Js.or_else (Js.message error) "Internal server error")) |}.

(** [exports.handler]: the [try] block under its [catch], which turns
    whatever was thrown into a 500.  The result is the response together
    with the requests that were sent to the provider. *)
Definition handler (event : Event) (env : Provider)
    (settled : list Source) : Response * list ProviderCall :=
  let attempt := handler_try event env settled in
  (match outcome attempt with
   | Js.Ok response => response
   | Js.Throw error => server_error error
   end,
   issued attempt).

(** The four requests of a GET, in the order in which they are sent. *)
Definition list_requests : list ProviderCall :=
  [ DescribeInstances stopped_instances;
    DescribeDBInstances;
    DescribeVolumes available_volumes;
    DescribeSnapshots own_snapshots ].

End Aggregator.

(** ** [src/api.ts] *)

Module Api.

(** A request of the axios instance; the url is relative to its [baseURL]. *)
Inductive Request :=
| DELETE (url : string).

(** The network as the dashboard sees it: [api.delete(url)] fulfils, or
    rejects (no answer, or a status outside 2xx). *)
Record Network := {
  api_delete : string -> Js.result unit
}.

Definition deleteResource (net : Network) (resourceId : string)
  : bool * list Request :=
  let url := "/resources/" +:+ resourceId in
  (match api_delete net url with
   | Js.Ok _ => true
   | Js.Throw _ => false
   end,
   [DELETE url]).

End Api.

(** ** The spreadsheet library, as far as [App.tsx] calls it

    The calls are kept as written: a worksheet is the list it was made from,
    a workbook is its named sheets in the order they were appended. *)

Module XLSX.

Inductive WorkSheet :=
| json_to_sheet (data : list Types.AWSResource).

Definition WorkBook : Type := list (string * WorkSheet).

Definition book_new : WorkBook := [].

Definition book_append_sheet (workbook : WorkBook) (worksheet : WorkSheet)
    (name : string) : WorkBook :=
  workbook ++ [(name, worksheet)].

End XLSX.

(** ** [src/App.tsx] *)

Module App.

(** [AWSResourceType | 'ALL'] *)
Inductive Selection :=
| ALL
| OfType (type : Types.AWSResourceType).

(** The four [useState] cells. *)
Record State := {
  resources : list Types.AWSResource;
  loading : bool;
  error : option string;
  selectedType : Selection
}.

Definition setResources (st : State) (value : list Types.AWSResource)
  : State :=
  {| resources := value; loading := loading st; error := error st;
     selectedType := selectedType st |}.

Definition setError (st : State) (value : option string) : State :=
  {| resources := resources st; loading := loading st; error := value;
     selectedType := selectedType st |}.

(** What an operation does outside the component's state. *)
Inductive Effect :=
| Confirm (question : string)
| Http (request : Api.Request)
| WriteFile (workbook : XLSX.WorkBook) (filename : string).

Record Browser := {
  confirm : string -> bool;
  network : Api.Network
}.

(** The text of the confirmation dialog. *)
Definition question : string :=
  "Are you sure you want to delete this resource?".

Definition handleDelete (w : Browser) (st : State) (id : string)
  : State * list Effect :=
  if confirm w question then
    let '(success, sent) := Api.deleteResource (network w) id in
    (if success then
       setResources st
         (filter (fun r => Types.id r ≠ id) (resources st))
     else
       setError st (Some "Failed to delete resource"),
     Confirm question :: (Http <$> sent))
  else
    (st, [Confirm question]).

Definition exportToExcel (st : State) : State * list Effect :=
  if decide (length (resources st) = 0) then
    (setError st (Some "No resources available to export"), [])
  else
    let worksheet := XLSX.json_to_sheet (resources st) in
    let workbook := XLSX.book_new in
    let workbook :=
      XLSX.book_append_sheet workbook worksheet "AWS Resources" in
    (st, [WriteFile workbook "aws-resources.xlsx"]).

Definition getResourceStats (st : State)
  : list Types.ResourceTypeCount.t :=
  (fun type =>
     {| Types.ResourceTypeCount.type := type;
        Types.ResourceTypeCount.count :=
          length (filter (fun r => Types.type r = type) (resources st));
        Types.ResourceTypeCount.totalCost :=
          foldl (fun sum r => (sum + Types.cost r)%float) 0%float
                (filter (fun r => Types.type r = type) (resources st)) |})
    <$> [Types.EC2; Types.RDS; Types.EBS; Types.SNAPSHOT].

Definition filteredResources (st : State) : list Types.AWSResource :=
  match selectedType st with
  | ALL => resources st
  | OfType selectedType =>
      filter (fun r => Types.type r = selectedType) (resources st)
  end.

End App.

(** ** Sample inputs *)

Module Samples.
Import Aggregator.

Definition get_event : Event :=
  {| httpMethod := Some "GET"; requestContext := None;
     pathParameters := None |}.

(** A DELETE that reached the handler without a path parameter. *)
Definition delete_without_id : Event :=
  {| httpMethod := Some "DELETE"; requestContext := None;
     pathParameters := None |}.

(** The same request in the HTTP API's event format, with an empty id. *)
Definition delete_empty_id : Event :=
  {| httpMethod := None;
     requestContext := Some {| http := Some {| method := Some "DELETE" |} |};
     pathParameters := Some {| PathParameters.id := Some "" |} |}.

Definition delete_i1 : Event :=
  {| httpMethod := Some "DELETE"; requestContext := None;
     pathParameters := Some {| PathParameters.id := Some "i-1" |} |}.

Definition untagged_instance : Instance.t :=
  {| Instance.InstanceId := "i-1";
     Instance.Tags := None;
     Instance.State := {| InstanceState.Name := "stopped" |};
     Instance.LaunchTime := "2024-01-01T00:00:00.000Z";
     Instance.InstanceType := "t3.micro" |}.


Definition tagged_instance : Instance.t :=
  {| Instance.InstanceId := "i-2";
     Instance.Tags :=
       Some [ {| Key := Some "Team"; Value := Some "ops" |};
              {| Key := Some "Name"; Value := Some "build-box" |} ];
     Instance.State := {| InstanceState.Name := "stopped" |};
     Instance.LaunchTime := "2024-02-01T00:00:00.000Z";
     Instance.InstanceType := "m5.large" |}.

Definition stopped_db : DBInstance :=
  {| DBInstanceIdentifier := "db-1"; DBInstanceStatus := "stopped";
     InstanceCreateTime := "2023-05-01T00:00:00.000Z";
     DBInstanceClass := "db.t3.micro"; Engine := "postgres" |}.

Definition running_db : DBInstance :=
  {| DBInstanceIdentifier := "db-2"; DBInstanceStatus := "available";
     InstanceCreateTime := "2023-06-01T00:00:00.000Z";
     DBInstanceClass := "db.t3.small"; Engine := "mysql" |}.

Definition untagged_volume : Volume.t :=
  {| Volume.VolumeId := "vol-1"; Volume.Tags := None;
     Volume.State := "available";
     Volume.CreateTime := "2023-07-01T00:00:00.000Z";
     Volume.Size := 100; Volume.VolumeType := "gp2" |}.

Definition untagged_snapshot : Snapshot.t :=
  {| Snapshot.SnapshotId := "snap-1"; Snapshot.Tags := None;
     Snapshot.State := "completed";
     Snapshot.StartTime := "2023-08-01T00:00:00.000Z";
     Snapshot.VolumeSize := 100 |}.

(** A provider whose four queries all succeed. *)
Definition provider (instances : list Instance.t) (dbs : list DBInstance)
    (volumes : list Volume.t) (snapshots : list Snapshot.t) : Provider :=
  {| describeInstances := fun _ =>
       Js.Ok {| Reservations := [ {| Instances := instances |} ] |};
     describeDBInstances := Js.Ok {| DBInstances := dbs |};
     describeVolumes := fun _ => Js.Ok {| Volumes := volumes |};
     describeSnapshots := fun _ => Js.Ok {| Snapshots := snapshots |};
     AWS_REGION := Some "eu-west-1" |}.

Definition empty_account : Provider := provider [] [] [] [].

(** What [tagged_instance] is listed as. *)
Definition tagged_resource : Types.AWSResource :=
  {| Types.id := "i-2";
     Types.type := Types.EC2;
     Types.name := "build-box";
     Types.region := Some "eu-west-1";
     Types.state := "stopped";
     Types.lastUsed := "2024-02-01T00:00:00.000Z";
     Types.cost := 0%float;
     Types.details := {|
       Types.instanceType := Some "m5.large";
       Types.volumeSize := None;
       Types.snapshotSize := None;
       Types.engine := None;
       Types.volumeType := None
     |} |}.

(** A provider that throttles the volume query only. *)
Definition throttled_volumes : Provider :=
  {| describeInstances := fun _ =>
       Js.Ok {| Reservations := [ {| Instances := [tagged_instance] |} ] |};
     describeDBInstances := Js.Ok {| DBInstances := [stopped_db] |};
     describeVolumes := fun _ =>
       Js.Throw (Js.Rejection (Some "Rate exceeded"));
     describeSnapshots := fun _ => Js.Ok {| Snapshots := [] |};
     AWS_REGION := Some "eu-west-1" |}.

(** A row of the dashboard's table. *)
Definition row (id : string) (type : Types.AWSResourceType)
  : Types.AWSResource :=
  {| Types.id := id;
     Types.type := type;
     Types.name := id;
     Types.region := Some "eu-west-1";
     Types.state := "stopped";
     Types.lastUsed := "2024-01-01T00:00:00.000Z";
     Types.cost := 0%float;
     Types.details := {|
       Types.instanceType := None;
       Types.volumeSize := None;
       Types.snapshotSize := None;
       Types.engine := None;
       Types.volumeType := None
     |} |}.

(** Five rows; the id "x-1" is carried by a volume and by a snapshot. *)
Definition loaded : list Types.AWSResource :=
  [ row "i-1" Types.EC2; row "x-1" Types.EBS; row "db-1" Types.RDS;
    row "x-1" Types.SNAPSHOT; row "i-2" Types.EC2 ].

Definition dashboard (resources : list Types.AWSResource)
    (selectedType : App.Selection) : App.State :=
  {| App.resources := resources; App.loading := false;
     App.error := None; App.selectedType := selectedType |}.

(** The operator confirms and the aggregator answers 200. *)
Definition agreeing : App.Browser :=
  {| App.confirm := fun _ => true;
     App.network := {| Api.api_delete := fun _ => Js.Ok tt |} |}.

(** The operator declines; the network would not answer. *)
Definition declining : App.Browser :=
  {| App.confirm := fun _ => false;
     App.network := {| Api.api_delete := fun _ =>
                         Js.Throw (Js.Rejection (Some "Network Error")) |} |}.

End Samples.

(** ** [src/api.ts]: fetching the list *)

Module ApiFetch.

(** [ResourceResponse] as it arrives in [response.data]: the dashboard
    reads both members as if either could be missing. *)
Module ResourceResponse.
Record t := {
  resources : option (list Types.AWSResource);
  error : option string
}.
End ResourceResponse.

(** What [api.get] rejects with, as far as [error.response?.data?.error]
    reads it: there may be no response (network down), no body, no
    [error] member. *)
Module AxiosError.
Record Data := { error : option string }.
Record Response := { data : option Data }.
Record t := { response : option Response }.
End AxiosError.

Inductive Request :=
| GET (url : string).

(** What [api.get] settles to.  [response.data] is the parsed body: [None]
    when the body is [null] (or there is none to read members from), else
    a value whose [resources] and [error] members can be read. *)
Inductive Outcome :=
| Fulfilled (data : option ResourceResponse.t)
| Rejected (error : AxiosError.t).

Record Network := {
  api_get : string -> Outcome
}.

(** [fetchResources] returns [response.data] as it is, unchecked. *)
Definition fetchResources (net : Network)
  : option ResourceResponse.t * list Request :=
  (match api_get net "/resources" with
   | Fulfilled data => data
   | Rejected error =>
       Some {| ResourceResponse.resources := Some [];
               ResourceResponse.error :=
                 Some (Js.or_else
                         ((AxiosError.response error ≫= AxiosError.data)
                            ≫= AxiosError.error)
                         "Failed to fetch resources") |}
   end,
   [GET "/resources"]).

End ApiFetch.

(** ** [src/App.tsx]: loading, selecting and rendering *)

Module AppView.

Definition setLoading (st : App.State) (value : bool) : App.State :=
  {| App.resources := App.resources st; App.loading := value;
     App.error := App.error st; App.selectedType := App.selectedType st |}.

Definition setSelectedType (st : App.State) (value : App.Selection)
  : App.State :=
  {| App.resources := App.resources st; App.loading := App.loading st;
     App.error := App.error st; App.selectedType := value |}.

(** [loadResources], from the click to the last [set] call.
    [fetchResources] catches every rejection itself, so the [catch] clause
    of [loadResources] runs in one case only: the answer is [null], and
    reading [response.error] throws. *)
Definition loadResources (net : ApiFetch.Network) (st : App.State)
  : App.State * list ApiFetch.Request :=
  let st := setLoading st true in
  let st := App.setError st None in
  let '(response, sent) := ApiFetch.fetchResources net in
  let st :=
    match response with
    | Some response =>
        match Js.truthy (ApiFetch.ResourceResponse.error response) with
        | Some error => App.setResources (App.setError st (Some error)) []
        | None =>
            App.setResources st
              (default [] (ApiFetch.ResourceResponse.resources response))
        end
    | None =>
        App.setResources
          (App.setError st (Some "Failed to fetch resources")) []
    end in
  (setLoading st false, sent).

(** [disabled={resources.length === 0}] of the export button. *)
Definition exportDisabled (st : App.State) : bool :=
  bool_decide (length (App.resources st) = 0).

(** A click on the export button: a disabled button does not call its
    handler. *)
Definition clickExport (st : App.State) : App.State * list App.Effect :=
  if exportDisabled st then (st, []) else App.exportToExcel st.

(** [{error && (...)}]: the text of the banner, when there is one. *)
Definition errorBanner (st : App.State) : option string :=
  Js.truthy (App.error st).

(** The element the component returns under the filter buttons: the
    spinner, the empty notice, or the table with one [<tr>] per visible
    row, keyed by the row's id.  This is what React is handed; which DOM
    nodes React keeps when two rows carry the same key is outside it. *)
Inductive MainView :=
| Spinner
| NoResourcesFound
| Table (rows : list Types.AWSResource).

Definition mainView (st : App.State) : MainView :=
  if App.loading st then Spinner
  else if decide (length (App.filteredResources st) = 0) then NoResourcesFound
  else Table (App.filteredResources st).

(** The children of a [<span>]: text written in the source, or the value
    of an expression in braces, which renders nothing when undefined. *)
Inductive Child :=
| Literal (text : string)
| StringValue (value : option string)
| NumberValue (value : option Z).

Definition undefinedChild (child : Child) : bool :=
  match child with
  | Literal _ => false
  | StringValue value => bool_decide (value = None)
  | NumberValue value => bool_decide (value = None)
  end.

(** The Details cell of a row: the spans it holds, each with its
    children. *)
Definition detailsCell (resource : Types.AWSResource) : list (list Child) :=
  let details := Types.details resource in
  (if decide (Types.type resource = Types.EC2) then
     match Js.truthy (Types.instanceType details) with
     | Some _ =>
         [[Literal "Instance: "; StringValue (Types.instanceType details)]]
     | None => []
     end
   else [])
  ++ (if decide (Types.type resource = Types.RDS) then
        [[StringValue (Types.engine details); Literal " (";
          StringValue (Types.instanceType details); Literal ")"]]
      else [])
  ++ (if decide (Types.type resource = Types.EBS) then
        [[NumberValue (Types.volumeSize details); Literal "GB (";
          StringValue (Types.volumeType details); Literal ")"]]
      else [])
  ++ (if decide (Types.type resource = Types.SNAPSHOT) then
        [[NumberValue (Types.snapshotSize details); Literal "GB"]]
      else []).

End AppView.

(** ** More sample inputs *)

Module MoreSamples.
Import Aggregator Samples.

(** An event in the HTTP API's format. *)
Definition http_api_event (m : string) : Event :=
  {| httpMethod := None;
     requestContext := Some {| http := Some {| method := Some m |} |};
     pathParameters := None |}.

(** An event in the REST API's format. *)
Definition rest_event (m : string) : Event :=
  {| httpMethod := Some m; requestContext := None;
     pathParameters := None |}.

Definition named_volume : Volume.t :=
  {| Volume.VolumeId := "vol-2";
     Volume.Tags :=
       Some [ {| Key := Some "Owner"; Value := Some "data" |};
              {| Key := Some "Name"; Value := Some "scratch" |};
              {| Key := Some "Name"; Value := Some "later" |} ];
     Volume.State := "available";
     Volume.CreateTime := "2023-09-01T00:00:00.000Z";
     Volume.Size := 8; Volume.VolumeType := "gp3" |}.

Definition named_snapshot : Snapshot.t :=
  {| Snapshot.SnapshotId := "snap-2";
     Snapshot.Tags := Some [ {| Key := Some "Name"; Value := Some "nightly" |} ];
     Snapshot.State := "completed";
     Snapshot.StartTime := "2023-10-01T00:00:00.000Z";
     Snapshot.VolumeSize := 8 |}.

(** An account with one record of every kind, and one database instance
    that is not stopped. *)
Definition small_account : Provider :=
  provider [tagged_instance] [running_db; stopped_db] [named_volume]
           [named_snapshot].

(** The list a GET returns for an account, empty when it returns none. *)
Definition listing (env : Provider) : list Types.AWSResource :=
  match body (fst (handler get_event env [])) with
  | JSON_stringify (Resources listed) => listed
  | _ => []
  end.

(** A provider whose rejections carry no text. *)
Definition failing_silently : Provider :=
  {| describeInstances := fun _ => Js.Throw (Js.Rejection (Some ""));
     describeDBInstances := Js.Throw (Js.Rejection None);
     describeVolumes := fun _ => Js.Throw (Js.Rejection None);
     describeSnapshots := fun _ => Js.Throw (Js.Rejection None);
     AWS_REGION := None |}.

(** The aggregator is unreachable. *)
Definition offline : ApiFetch.Network :=
  {| ApiFetch.api_get := fun _ =>
       ApiFetch.Rejected {| ApiFetch.AxiosError.response := None |} |}.

(** The aggregator answered 500 with its own message. *)
Definition answering_500 : ApiFetch.Network :=
  {| ApiFetch.api_get := fun _ =>
       ApiFetch.Rejected
         {| ApiFetch.AxiosError.response :=
              Some {| ApiFetch.AxiosError.data :=
                        Some {| ApiFetch.AxiosError.error :=
                                  Some "Rate exceeded" |} |} |} |}.

(** The aggregator answered 200 with [loaded]. *)
Definition answering_200 : ApiFetch.Network :=
  {| ApiFetch.api_get := fun _ =>
       ApiFetch.Fulfilled
         (Some {| ApiFetch.ResourceResponse.resources := Some loaded;
                  ApiFetch.ResourceResponse.error := None |}) |}.

(** A 200 whose body is the JSON value [null]. *)
Definition answering_null : ApiFetch.Network :=
  {| ApiFetch.api_get := fun _ => ApiFetch.Fulfilled None |}.

(** A 200 whose body carries rows and an error member. *)
Definition answering_partial : ApiFetch.Network :=
  {| ApiFetch.api_get := fun _ =>
       ApiFetch.Fulfilled
         (Some {| ApiFetch.ResourceResponse.resources := Some loaded;
                  ApiFetch.ResourceResponse.error := Some "partial" |}) |}.

(** A dashboard that shows a stale error over old rows. *)
Definition stale : App.State :=
  {| App.resources := [row "old-1" Types.EBS]; App.loading := false;
     App.error := Some "Failed to delete resource";
     App.selectedType := App.OfType Types.EBS |}.

(** The operator confirms and the aggregator does not answer. *)
Definition unanswered : App.Browser :=
  {| App.confirm := fun _ => true;
     App.network := {| Api.api_delete := fun _ =>
                         Js.Throw (Js.Rejection (Some "Network Error")) |} |}.

End MoreSamples.

(** ** Properties of the aggregator *)

Section Normalisers.
Import Aggregator.
Context {A B : Type} (f : A -> Js.result B).

(** [map] with a callback that never throws on [l] returns the images in
    the order of [l]. *)
Lemma mapM_Ok (l : list A) (k : list B) :
  Forall2 (fun x y => f x = Js.Ok y) l k -> mapM f l = Js.Ok k.
Proof.
  induction 1 as [|x y l k Hxy _ IH]; [reflexivity|].
  cbn. rewrite Hxy. cbn. rewrite IH. reflexivity.
Qed.

Lemma mapM_Ok_inv (l : list A) (k : list B) :
  mapM f l = Js.Ok k -> Forall2 (fun x y => f x = Js.Ok y) l k.
Proof.
  revert k. induction l as [|x l IH]; intros k; cbn.
  - intros [= <-]. constructor.
  - destruct (f x) as [y|e] eqn:Hx; cbn; [|discriminate].
    destruct (mapM f l) as [k'|e] eqn:Hl; cbn; [|discriminate].
    intros [= <-]. constructor; [exact Hx | apply IH; reflexivity].
Qed.

(** [flatMap] over lists of lists, with the same callback inside. *)
Lemma flatMap_Ok {R : Type} (g : R -> list A) (rs : list R) (k : list B) :
  Forall2 (fun x y => f x = Js.Ok y) (rs ≫= g) k ->
  @concat _ <$> mapM (fun r => mapM f (g r)) rs = Js.Ok k.
Proof.
  revert k. induction rs as [|r rs IH]; intros k; cbn.
  - intros H. apply Forall2_nil_inv_l in H. subst k. reflexivity.
  - intros H. apply Forall2_app_inv_l in H.
    destruct H as (k1 & k2 & H1 & H2 & ->).
    rewrite (mapM_Ok _ _ H1). cbn.
    specialize (IH _ H2).
    destruct (mapM (fun r => mapM f (g r)) rs) as [ks|e]; cbn in *.
    + injection IH as <-. reflexivity.
    + discriminate.
Qed.

Lemma flatMap_Ok_inv {R : Type} (g : R -> list A) (rs : list R)
    (k : list B) :
  @concat _ <$> mapM (fun r => mapM f (g r)) rs = Js.Ok k ->
  Forall2 (fun x y => f x = Js.Ok y) (rs ≫= g) k.
Proof.
  revert k. induction rs as [|r rs IH]; intros k; cbn.
  - intros [= <-]. constructor.
  - destruct (mapM f (g r)) as [k1|e] eqn:H1; cbn; [|discriminate].
    destruct (mapM (fun r => mapM f (g r)) rs) as [ks|e]; cbn in *;
      [|discriminate].
    intros [= <-]. apply Forall2_app.
    + apply mapM_Ok_inv, H1.
    + apply IH. reflexivity.
Qed.

End Normalisers.

Section PromiseAll.
Import Aggregator.
Context {A B C D : Type}.
Variables (p1 : promise A) (p2 : promise B) (p3 : promise C)
          (p4 : promise D).

Lemma omap_all_None {X Y : Type} (f : X -> option Y) (l : list X) :
  (forall x, f x = None) -> omap f l = [].
Proof.
  intros Hf. induction l as [|x l IH]; [reflexivity|].
  cbn. rewrite Hf. exact IH.
Qed.

Lemma Promise_all_issued (settled : list Source) :
  issued (Promise_all settled p1 p2 p3 p4)
  = issued p1 ++ issued p2 ++ issued p3 ++ issued p4.
Proof. reflexivity. Qed.

Lemma Promise_all_fulfils (settled : list Source) a b c d :
  outcome p1 = Js.Ok a -> outcome p2 = Js.Ok b ->
  outcome p3 = Js.Ok c -> outcome p4 = Js.Ok d ->
  outcome (Promise_all settled p1 p2 p3 p4) = Js.Ok (a, b, c, d).
Proof.
  intros H1 H2 H3 H4. unfold Promise_all. cbn.
  rewrite omap_all_None.
  - rewrite H1, H2, H3, H4. reflexivity.
  - intros []; unfold rejection;
      [rewrite H1 | rewrite H2 | rewrite H3 | rewrite H4]; reflexivity.
Qed.

(** One rejection is enough, whatever the order of settlement; the reason
    reported is the reason of one of the rejected promises. *)
Lemma Promise_all_rejects (settled : list Source) :
  is_Some (rejection p1) \/ is_Some (rejection p2)
    \/ is_Some (rejection p3) \/ is_Some (rejection p4) ->
  exists e,
    (rejection p1 = Some e \/ rejection p2 = Some e
       \/ rejection p3 = Some e \/ rejection p4 = Some e)
    /\ outcome (Promise_all settled p1 p2 p3 p4) = Js.Throw e.
Proof.
  intros Hrej. unfold Promise_all. cbn.
  set (rejection_of := fun s : Source =>
         match s with
         | FromEC2 => rejection p1
         | FromRDS => rejection p2
         | FromEBS => rejection p3
         | FromSnapshots => rejection p4
         end).
  destruct (omap rejection_of
              (settled ++ [FromEC2; FromRDS; FromEBS; FromSnapshots]))
    as [|e es] eqn:Hom.
  - exfalso.
    assert (exists s e, rejection_of s = Some e) as (s & e & Hs).
    { destruct Hrej as [[e H]|[[e H]|[[e H]|[e H]]]];
        [exists FromEC2 | exists FromRDS | exists FromEBS
         | exists FromSnapshots]; exists e; exact H. }
    assert (e ∈ omap rejection_of
              (settled ++ [FromEC2; FromRDS; FromEBS; FromSnapshots]))
      as Hin.
    { apply list_elem_of_omap. exists s. split; [|exact Hs].
      apply elem_of_app. right. destruct s; repeat constructor. }
    rewrite Hom in Hin. inversion Hin.
  - exists e. split; [|reflexivity].
    assert (e ∈ omap rejection_of
              (settled ++ [FromEC2; FromRDS; FromEBS; FromSnapshots]))
      as Hin by (rewrite Hom; left).
    apply list_elem_of_omap in Hin. destruct Hin as ([] & _ & Hs); auto.
Qed.

End PromiseAll.

Section Handler.
Import Aggregator.


(** A record built by hand without a [Tags] member. *)
Lemma ec2Resource_without_tags env instance :
  Instance.Tags instance = None ->
  ec2Resource env instance = Js.Throw Js.undefined_find.
Proof. intros H. unfold ec2Resource. rewrite H. reflexivity. Qed.

Lemma rdsResource_name env instance :
  Types.name (rdsResource env instance)
  = Types.id (rdsResource env instance).
Proof. reflexivity. Qed.

Lemma ebsResource_without_tags env volume :
  Volume.Tags volume = None ->
  Types.name (ebsResource env volume) = Types.id (ebsResource env volume).
Proof. intros H. cbn. rewrite H. reflexivity. Qed.

Lemma snapshotResource_without_tags env snapshot :
  Snapshot.Tags snapshot = None ->
  Types.name (snapshotResource env snapshot)
  = Types.id (snapshotResource env snapshot).
Proof. intros H. cbn. rewrite H. reflexivity. Qed.

(** A GET sends the four requests, whether or not they succeed. *)
Lemma handler_get_requests event env settled :
  request_method event = Some "GET" ->
  snd (handler event env settled) = list_requests.
Proof.
  intros Hm. unfold handler, handler_try. rewrite Hm.
  rewrite decide_True by reflexivity. reflexivity.
Qed.

(** The DELETE branch sends nothing: it answers from the path parameter
    alone. *)
Lemma handler_delete event env settled :
  request_method event = Some "DELETE" ->
  handler event env settled
  = (match Js.truthy (pathParameters event ≫= PathParameters.id) with
     | None => server_error (Js.Error "Resource ID is required")
     | Some resourceId =>
         {| statusCode := 200;
            headers := cors_headers;
            body := JSON_stringify
                      (Message ("Resource " +:+ resourceId
                                  +:+ " deleted successfully")) |}
     end,
     []).
Proof.
  intros Hm. unfold handler, handler_try. rewrite Hm.
  rewrite decide_False by discriminate.
  rewrite decide_True by reflexivity.
  cbn [outcome issued].
  destruct (Js.truthy (pathParameters event ≫= PathParameters.id));
    reflexivity.
Qed.

(** The GET branch: the four queries under [Promise.all], then either the
    merged list or the [catch] clause. *)
Lemma handler_get event env settled :
  request_method event = Some "GET" ->
  handler event env settled
  = (match outcome (Promise_all settled (getEC2Resources env)
                      (getRDSResources env) (getEBSResources env)
                      (getSnapshots env)) with
     | Js.Ok (ec2, rds, ebs, snapshots) =>
         {| statusCode := 200;
            headers := cors_headers;
            body := JSON_stringify
                      (Resources (ec2 ++ rds ++ ebs ++ snapshots)) |}
     | Js.Throw e => server_error e
     end,
     list_requests).
Proof.
  intros Hm. unfold handler, handler_try. rewrite Hm.
  rewrite decide_True by reflexivity.
  cbn [outcome issued].
  destruct (outcome (Promise_all settled (getEC2Resources env)
                       (getRDSResources env) (getEBSResources env)
                       (getSnapshots env)))
    as [[[[ec2 rds] ebs] snapshots]|e]; reflexivity.
Qed.

Lemma handler_get_fulfilled event env settled ec2 rds ebs snapshots :
  request_method event = Some "GET" ->
  outcome (getEC2Resources env) = Js.Ok ec2 ->
  outcome (getRDSResources env) = Js.Ok rds ->
  outcome (getEBSResources env) = Js.Ok ebs ->
  outcome (getSnapshots env) = Js.Ok snapshots ->
  handler event env settled
  = ({| statusCode := 200;
        headers := cors_headers;
        body := JSON_stringify
                  (Resources (ec2 ++ rds ++ ebs ++ snapshots)) |},
     list_requests).
Proof.
  intros Hm H1 H2 H3 H4. rewrite (handler_get _ _ _ Hm).
  rewrite (Promise_all_fulfils _ _ _ _ settled _ _ _ _ H1 H2 H3 H4).
  reflexivity.
Qed.

Lemma handler_get_rejected event env settled :
  request_method event = Some "GET" ->
  is_Some (rejection (getEC2Resources env))
    \/ is_Some (rejection (getRDSResources env))
    \/ is_Some (rejection (getEBSResources env))
    \/ is_Some (rejection (getSnapshots env)) ->
  exists e,
    (rejection (getEC2Resources env) = Some e
       \/ rejection (getRDSResources env) = Some e
       \/ rejection (getEBSResources env) = Some e
       \/ rejection (getSnapshots env) = Some e)
    /\ handler event env settled = (server_error e, list_requests).
Proof.
  intros Hm Hrej.
  destruct (Promise_all_rejects _ _ _ _ settled Hrej) as (e & He & Hout).
  exists e. split; [exact He|].
  rewrite (handler_get _ _ _ Hm), Hout. reflexivity.
Qed.

(** What a fulfilled query holds: the provider answered, and the list is
    the image of the answer, in its order. *)
Lemma getEC2Resources_fulfilled env ec2Resources :
  outcome (getEC2Resources env) = Js.Ok ec2Resources ->
  exists instances,
    describeInstances env stopped_instances = Js.Ok instances
    /\ Forall2 (fun instance r => ec2Resource env instance = Js.Ok r)
               (Reservations instances ≫= Instances) ec2Resources.
Proof.
  cbn. destruct (describeInstances env stopped_instances) as [instances|e];
    [|discriminate].
  cbn. intros H. exists instances. split; [reflexivity|].
  apply flatMap_Ok_inv, H.
Qed.

Lemma getRDSResources_fulfilled env rdsResources :
  outcome (getRDSResources env) = Js.Ok rdsResources ->
  exists dbs,
    describeDBInstances env = Js.Ok dbs
    /\ rdsResources
       = (rdsResource env <$>
            filter (fun db => DBInstanceStatus db = "stopped")
                   (DBInstances dbs)).
Proof.
  cbn. destruct (describeDBInstances env) as [dbs|e]; [|discriminate].
  intros [= <-]. exists dbs. split; reflexivity.
Qed.

Lemma getEBSResources_fulfilled env ebsResources :
  outcome (getEBSResources env) = Js.Ok ebsResources ->
  exists volumes,
    describeVolumes env available_volumes = Js.Ok volumes
    /\ ebsResources = (ebsResource env <$> Volumes volumes).
Proof.
  cbn. destruct (describeVolumes env available_volumes) as [volumes|e];
    [|discriminate].
  intros [= <-]. exists volumes. split; reflexivity.
Qed.

Lemma getSnapshots_fulfilled env snapshotResources :
  outcome (getSnapshots env) = Js.Ok snapshotResources ->
  exists snapshots,
    describeSnapshots env own_snapshots = Js.Ok snapshots
    /\ snapshotResources = (snapshotResource env <$> Snapshots snapshots).
Proof.
  cbn. destruct (describeSnapshots env own_snapshots) as [snapshots|e];
    [|discriminate].
  intros [= <-]. exists snapshots. split; reflexivity.
Qed.

(** A request that the provider rejects rejects its query, with the
    provider's reason. *)
Lemma rejected_request_rejects_query env e :
  (describeInstances env stopped_instances = Js.Throw e
     \/ describeDBInstances env = Js.Throw e
     \/ describeVolumes env available_volumes = Js.Throw e
     \/ describeSnapshots env own_snapshots = Js.Throw e ->
   is_Some (rejection (getEC2Resources env))
     \/ is_Some (rejection (getRDSResources env))
     \/ is_Some (rejection (getEBSResources env))
     \/ is_Some (rejection (getSnapshots env)))
  /\ (describeInstances env stopped_instances = Js.Throw e ->
      rejection (getEC2Resources env) = Some e)
  /\ (describeDBInstances env = Js.Throw e ->
      rejection (getRDSResources env) = Some e)
  /\ (describeVolumes env available_volumes = Js.Throw e ->
      rejection (getEBSResources env) = Some e)
  /\ (describeSnapshots env own_snapshots = Js.Throw e ->
      rejection (getSnapshots env) = Some e).
Proof.
  unfold rejection. cbn.
  repeat split; try (intros ->; reflexivity).
  intros [-> | [-> | [-> | ->]]]; cbn; eauto 6.
Qed.

End Handler.

Section AggregatorProperties.
Import Aggregator Samples.



(** A compute record built by hand without a [Tags] member, which the SDK
    does not deliver: [find] is called on the missing member, and the GET
    that holds the record is answered 500 with the TypeError's text. *)
Example instance_without_Tags_member :
  ec2Resource empty_account untagged_instance
  = Js.Throw Js.undefined_find
  /\ handler get_event (provider [untagged_instance] [] [] []) []
     = ({| statusCode := 500;
           headers := error_headers;
           body := JSON_stringify
             (ErrorMessage
                "Cannot read properties of undefined (reading 'find')") |},
        list_requests).
Proof. split; reflexivity. Qed.

(** C2, as stated, fails: a DELETE without a path parameter is answered
    500, not 400. *)
Lemma delete_without_id_is_not_400 :
  request_method delete_without_id = Some "DELETE"
  /\ pathParameters delete_without_id ≫= PathParameters.id = None
  /\ statusCode (fst (handler delete_without_id empty_account [])) = 500%Z
  /\ statusCode (fst (handler delete_without_id empty_account [])) ≠ 400%Z.
Proof. repeat split. discriminate. Qed.

(** C2, amended: for every DELETE request whose path-provided resource id
    is missing or empty, the handler answers 500 with the error message
    "Resource ID is required" (the guard throws and the handler's single
    [catch] turns every throw into a 500), and sends nothing to the
    provider. *)
Theorem delete_without_id_is_500 event env settled :
  request_method event = Some "DELETE" ->
  pathParameters event ≫= PathParameters.id = None
    \/ pathParameters event ≫= PathParameters.id = Some "" ->
  handler event env settled
  = ({| statusCode := 500;
        headers := error_headers;
        body := JSON_stringify (ErrorMessage "Resource ID is required") |},
     []).
Proof.
  intros Hm Hid. rewrite (handler_delete _ _ _ Hm).
  destruct Hid as [-> | ->]; reflexivity.
Qed.

Lemma delete_without_id_is_500_witness :
  request_method delete_empty_id = Some "DELETE"
  /\ pathParameters delete_empty_id ≫= PathParameters.id = Some ""
  /\ handler delete_empty_id empty_account [FromEBS]
     = ({| statusCode := 500;
           headers := error_headers;
           body := JSON_stringify
                     (ErrorMessage "Resource ID is required") |},
        []).
Proof.
  split; [reflexivity|]. split; [reflexivity|].
  apply (delete_without_id_is_500 delete_empty_id empty_account [FromEBS]).
  - reflexivity.
  - right. reflexivity.
Defined.

(** C3.  On a GET whose four queries succeed (the four promises under
    [Promise.all] fulfil), the list returned is the concatenation, compute
    then managed-db then volume then snapshot, of the four normalised
    sublists, and each sublist is in the order of the provider's answer: the
    compute sublist is the element-wise image of the instances of all
    reservations, the managed-db sublist that of the stopped database
    instances, the volume and snapshot sublists those of the volumes and
    snapshots.  Nothing is sorted, no sublist needs to be non-empty, and the
    order in which the queries settle does not matter. *)
Theorem list_concatenates_in_fixed_order
    event env settled ec2Resources rdsResources ebsResources
    snapshotResources :
  request_method event = Some "GET" ->
  outcome (getEC2Resources env) = Js.Ok ec2Resources ->
  outcome (getRDSResources env) = Js.Ok rdsResources ->
  outcome (getEBSResources env) = Js.Ok ebsResources ->
  outcome (getSnapshots env) = Js.Ok snapshotResources ->
  fst (handler event env settled)
  = {| statusCode := 200;
       headers := cors_headers;
       body := JSON_stringify
         (Resources (ec2Resources ++ rdsResources ++ ebsResources
                       ++ snapshotResources)) |}
  /\ (exists instances,
        describeInstances env stopped_instances = Js.Ok instances
        /\ Forall2 (fun instance r => ec2Resource env instance = Js.Ok r)
                   (Reservations instances ≫= Instances) ec2Resources)
  /\ (exists dbs,
        describeDBInstances env = Js.Ok dbs
        /\ rdsResources
           = (rdsResource env <$>
                filter (fun db => DBInstanceStatus db = "stopped")
                       (DBInstances dbs)))
  /\ (exists volumes,
        describeVolumes env available_volumes = Js.Ok volumes
        /\ ebsResources = (ebsResource env <$> Volumes volumes))
  /\ (exists snapshots,
        describeSnapshots env own_snapshots = Js.Ok snapshots
        /\ snapshotResources
           = (snapshotResource env <$> Snapshots snapshots)).
Proof.
  intros Hm H1 H2 H3 H4. split.
  - rewrite (handler_get_fulfilled _ _ _ _ _ _ _ Hm H1 H2 H3 H4).
    reflexivity.
  - repeat split.
    + exact (getEC2Resources_fulfilled _ _ H1).
    + exact (getRDSResources_fulfilled _ _ H2).
    + exact (getEBSResources_fulfilled _ _ H3).
    + exact (getSnapshots_fulfilled _ _ H4).
Qed.

Lemma list_concatenates_in_fixed_order_witness :
  fst (handler get_event
         (provider [tagged_instance] [running_db; stopped_db]
                   [untagged_volume] [untagged_snapshot])
         [FromSnapshots; FromEC2])
  = {| statusCode := 200;
       headers := cors_headers;
       body := JSON_stringify
         (Resources
            [ tagged_resource;
              rdsResource empty_account stopped_db;
              ebsResource empty_account untagged_volume;
              snapshotResource empty_account untagged_snapshot ]) |}.
Proof.
  apply (proj1 (list_concatenates_in_fixed_order get_event
                  (provider [tagged_instance] [running_db; stopped_db]
                            [untagged_volume] [untagged_snapshot])
                  [FromSnapshots; FromEC2]
                  [tagged_resource]
                  [rdsResource empty_account stopped_db]
                  [ebsResource empty_account untagged_volume]
                  [snapshotResource empty_account untagged_snapshot]
                  eq_refl eq_refl eq_refl eq_refl eq_refl)).
Defined.

(** The all-empty case of C3: four empty answers give the empty list. *)
Example list_of_empty_account settled :
  fst (handler get_event empty_account settled)
  = {| statusCode := 200;
       headers := cors_headers;
       body := JSON_stringify (Resources []) |}.
Proof.
  rewrite (handler_get_fulfilled get_event empty_account settled [] [] [] []);
    reflexivity.
Qed.

(** C4.  On a GET on which at least one of the four queries fails (its
    promise rejects, as it does when the provider rejects the request:
    [rejected_request_rejects_query]), the handler answers with one error
    outcome: status 500 and a body that carries an error message, the one of
    a failed query when it has one, and no resource list, whichever queries
    succeeded and in whatever order the four settled. *)
Theorem failed_query_fails_the_list event env settled :
  request_method event = Some "GET" ->
  is_Some (rejection (getEC2Resources env))
    \/ is_Some (rejection (getRDSResources env))
    \/ is_Some (rejection (getEBSResources env))
    \/ is_Some (rejection (getSnapshots env)) ->
  exists e,
    (rejection (getEC2Resources env) = Some e
       \/ rejection (getRDSResources env) = Some e
       \/ rejection (getEBSResources env) = Some e
       \/ rejection (getSnapshots env) = Some e)
    /\ handler event env settled
       = ({| statusCode := 500;
             headers := error_headers;
             body := JSON_stringify
               (ErrorMessage
                  (Js.or_else (Js.message e) "Internal server error")) |},
          list_requests).
Proof.
  intros Hm Hrej.
  destruct (handler_get_rejected event env settled Hm Hrej) as (e & He & ->).
  exists e. split; [exact He | reflexivity].
Qed.

Lemma failed_query_fails_the_list_witness :
  exists e,
    (rejection (getEC2Resources throttled_volumes) = Some e
       \/ rejection (getRDSResources throttled_volumes) = Some e
       \/ rejection (getEBSResources throttled_volumes) = Some e
       \/ rejection (getSnapshots throttled_volumes) = Some e)
    /\ handler get_event throttled_volumes [FromSnapshots; FromRDS]
       = ({| statusCode := 500;
             headers := error_headers;
             body := JSON_stringify
               (ErrorMessage
                  (Js.or_else (Js.message e) "Internal server error")) |},
          list_requests).
Proof.
  apply (failed_query_fails_the_list get_event throttled_volumes
           [FromSnapshots; FromRDS]).
  - reflexivity.
  - apply (proj1 (rejected_request_rejects_query throttled_volumes
                    (Js.Rejection (Some "Rate exceeded")))).
    right. right. left. reflexivity.
Defined.

(** The answer of that GET: the provider's own message, and nothing of the
    instance and the database that were listed. *)
Example list_of_throttled_account :
  fst (handler get_event throttled_volumes [FromSnapshots; FromRDS])
  = {| statusCode := 500;
       headers := error_headers;
       body := JSON_stringify (ErrorMessage "Rate exceeded") |}.
Proof. reflexivity. Qed.

(** C5.  A DELETE that carries a non-empty resource id is answered 200
    with the message "Resource <id> deleted successfully", whatever the id
    and whatever the provider holds, and no request is sent to the
    provider. *)
Theorem delete_acknowledges_any_id event env settled resourceId :
  request_method event = Some "DELETE" ->
  pathParameters event ≫= PathParameters.id = Some resourceId ->
  resourceId ≠ "" ->
  handler event env settled
  = ({| statusCode := 200;
        headers := cors_headers;
        body := JSON_stringify
                  (Message ("Resource " +:+ resourceId
                              +:+ " deleted successfully")) |},
     []).
Proof.
  intros Hm Hid Hne. rewrite (handler_delete _ _ _ Hm), Hid.
  cbn. rewrite bool_decide_false by exact Hne. reflexivity.
Qed.

Lemma delete_acknowledges_any_id_witness :
  handler delete_i1 empty_account []
  = ({| statusCode := 200;
        headers := cors_headers;
        body := JSON_stringify
                  (Message "Resource i-1 deleted successfully") |},
     []).
Proof.
  apply (delete_acknowledges_any_id delete_i1 empty_account [] "i-1").
  - reflexivity.
  - reflexivity.
  - discriminate.
Defined.

End AggregatorProperties.

(** ** Properties of the dashboard *)

Section Dashboard.
Import App.

(** Every row has one of the four types, so the four per-type sublists
    partition the list. *)
Lemma count_by_type (l : list Types.AWSResource) :
  length (filter (fun r => Types.type r = Types.EC2) l)
  + (length (filter (fun r => Types.type r = Types.RDS) l)
     + (length (filter (fun r => Types.type r = Types.EBS) l)
        + (length (filter (fun r => Types.type r = Types.SNAPSHOT) l) + 0)))
  = length l.
Proof.
  induction l as [|r l IH]; [reflexivity|].
  rewrite !filter_cons.
  destruct (Types.type r); repeat case_decide; try congruence; cbn; lia.
Qed.

(** The [reduce] of the summary over rows that cost nothing. *)
Lemma reduce_cost_zero (l : list Types.AWSResource) :
  Forall (fun r => Types.cost r = 0%float) l ->
  foldl (fun sum r => (sum + Types.cost r)%float) 0%float l = 0%float.
Proof.
  induction 1 as [|r l Hr _ IH]; [reflexivity|].
  cbn. rewrite Hr. exact IH.
Qed.

Lemma Forall_filter_keeps {X : Type} (P Q : X -> Prop)
    `{forall x, Decision (Q x)} (l : list X) :
  Forall P l -> Forall P (filter Q l).
Proof.
  induction 1 as [|x l Hx _ IH]; [constructor|].
  rewrite filter_cons. case_decide; [constructor|]; assumption.
Qed.

End Dashboard.

Section CostOfListedResources.
Import Aggregator.

Lemma Promise_all_fulfils_inv {A B C D : Type} (settled : list Source)
    (p1 : promise A) (p2 : promise B) (p3 : promise C) (p4 : promise D)
    a b c d :
  outcome (Promise_all settled p1 p2 p3 p4) = Js.Ok (a, b, c, d) ->
  outcome p1 = Js.Ok a /\ outcome p2 = Js.Ok b
  /\ outcome p3 = Js.Ok c /\ outcome p4 = Js.Ok d.
Proof.
  unfold Promise_all. cbn [outcome].
  match goal with |- context [omap ?f ?l] => destruct (omap f l) end;
    [|discriminate].
  destruct (outcome p1), (outcome p2), (outcome p3), (outcome p4);
    cbn; try discriminate.
  intros [= -> -> -> ->]. repeat split.
Qed.

Lemma ec2Resource_cost env instance r :
  ec2Resource env instance = Js.Ok r -> Types.cost r = 0%float.
Proof.
  unfold ec2Resource. destruct (Instance.Tags instance); cbn; [|discriminate].
  intros [= <-]. reflexivity.
Qed.

(** Every resource of every list the handler returns has cost 0. *)
Lemma listed_resources_cost_nothing event env settled l :
  body (fst (handler event env settled)) = JSON_stringify (Resources l) ->
  Forall (fun r => Types.cost r = 0%float) l.
Proof.
  destruct (decide (request_method event = Some "GET")) as [Hm|Hm].
  - rewrite (handler_get _ _ _ Hm). cbn [fst].
    destruct (outcome (Promise_all _ _ _ _ _))
      as [[[[ec2 rds] ebs] snapshots]|e] eqn:Hall; [|discriminate].
    apply Promise_all_fulfils_inv in Hall.
    destruct Hall as (H1 & H2 & H3 & H4).
    cbn. intros [= <-]. rewrite !Forall_app. repeat split.
    + cbn in H1. destruct (describeInstances env stopped_instances)
        as [instances|e]; [|discriminate].
      cbn in H1. apply flatMap_Ok_inv in H1.
      induction H1 as [|instance r instances0 rs Hir _ IH]; constructor;
        [exact (ec2Resource_cost _ _ _ Hir) | exact IH].
    + cbn in H2. destruct (describeDBInstances env) as [dbs|e];
        [|discriminate].
      injection H2 as <-. apply Forall_fmap, Forall_forall. reflexivity.
    + cbn in H3. destruct (describeVolumes env available_volumes)
        as [volumes|e]; [|discriminate].
      injection H3 as <-. apply Forall_fmap, Forall_forall. reflexivity.
    + cbn in H4. destruct (describeSnapshots env own_snapshots)
        as [snaps|e]; [|discriminate].
      injection H4 as <-. apply Forall_fmap, Forall_forall. reflexivity.
  - unfold handler, handler_try. rewrite decide_False by exact Hm.
    repeat case_decide; cbn; try discriminate.
    destruct (Js.truthy _); discriminate.
Qed.

End CostOfListedResources.

Section DashboardProperties.
Import App Samples.

(** C6, as stated, fails: with an empty id and a confirming operator the
    dashboard sends a DELETE for "/resources/" to the aggregator. *)
Lemma empty_id_reaches_the_network :
  Http (Api.DELETE "/resources/")
    ∈ snd (handleDelete agreeing (dashboard loaded ALL) "").
Proof. cbn. right. left. Qed.

(** C6, amended: the dashboard's delete makes no check on the id, so an
    empty id is treated like any other.  The one guard before the network is
    the confirmation dialog: if the operator declines, nothing is sent and
    the state is unchanged; if the operator confirms, one DELETE request for
    "/resources/" followed by the id is sent. *)
Theorem delete_asks_for_confirmation_only w st x :
  if confirm w question then
    snd (handleDelete w st x)
    = [Confirm question; Http (Api.DELETE ("/resources/" +:+ x))]
  else
    handleDelete w st x = (st, [Confirm question]).
Proof.
  unfold handleDelete, Api.deleteResource.
  destruct (confirm w question); reflexivity.
Qed.

(** C7.  Summarize computes four tiles, one per type, in the order
    compute, managed-db, volume, snapshot, over the full list and whatever
    the selection.  A tile counts the rows of its type and adds up their
    costs.  So the four counts add up to the length of the list; and every
    tile's total cost is 0 when the rows cost 0, as they do when they are
    rows of a list that the aggregator returned, every normalised Resource
    being produced with cost 0. *)
Theorem summary_counts_and_costs st :
  Types.ResourceTypeCount.type <$> getResourceStats st
  = [Types.EC2; Types.RDS; Types.EBS; Types.SNAPSHOT]
  /\ Forall (fun tile =>
               Types.ResourceTypeCount.count tile
               = length (filter (fun r => Types.type r
                                         = Types.ResourceTypeCount.type tile)
                                (resources st))
               /\ Types.ResourceTypeCount.totalCost tile
                  = foldl (fun sum c => (sum + c)%float) 0%float
                          (Types.cost <$>
                             filter (fun r => Types.type r
                                            = Types.ResourceTypeCount.type tile)
                                    (resources st)))
            (getResourceStats st)
  /\ sum_list (Types.ResourceTypeCount.count <$> getResourceStats st)
     = length (resources st)
  /\ (Forall (fun r => Types.cost r = 0%float) (resources st) ->
      Forall (fun tile => Types.ResourceTypeCount.totalCost tile = 0%float)
             (getResourceStats st))
  /\ (forall event env settled listed,
        Aggregator.body (fst (Aggregator.handler event env settled))
        = Aggregator.JSON_stringify (Aggregator.Resources listed) ->
        resources st ⊆ listed ->
        Forall (fun tile => Types.ResourceTypeCount.totalCost tile = 0%float)
               (getResourceStats st)).
Proof.
  assert (Forall (fun r => Types.cost r = 0%float) (resources st) ->
          Forall (fun tile =>
                    Types.ResourceTypeCount.totalCost tile = 0%float)
                 (getResourceStats st)) as Hzero.
  { intros Hcost. unfold getResourceStats.
    apply Forall_fmap, Forall_forall. intros type _. cbn.
    apply reduce_cost_zero, Forall_filter_keeps, Hcost. }
  split; [reflexivity|]. split; [|split; [|split]].
  - unfold getResourceStats. apply Forall_fmap, Forall_forall.
    intros type _. cbn. split; [reflexivity|].
    rewrite foldl_fmap. reflexivity.
  - cbn. apply count_by_type.
  - exact Hzero.
  - intros event env settled listed Hbody Hsub. apply Hzero.
    apply Forall_forall. intros r Hr.
    pose proof (listed_resources_cost_nothing _ _ _ _ Hbody) as Hall.
    rewrite Forall_forall in Hall. apply Hall, Hsub, Hr.
Qed.

Lemma summary_counts_and_costs_witness :
  Types.ResourceTypeCount.type
    <$> getResourceStats (dashboard loaded (OfType Types.RDS))
  = [Types.EC2; Types.RDS; Types.EBS; Types.SNAPSHOT]
  /\ sum_list (Types.ResourceTypeCount.count
                 <$> getResourceStats (dashboard loaded (OfType Types.RDS)))
     = 5
  /\ Forall (fun tile => Types.ResourceTypeCount.totalCost tile = 0%float)
            (getResourceStats (dashboard loaded (OfType Types.RDS)))
  /\ Forall (fun tile => Types.ResourceTypeCount.totalCost tile = 0%float)
            (getResourceStats (dashboard [tagged_resource] ALL)).
Proof.
  split; [|split; [|split]].
  - apply (proj1 (summary_counts_and_costs
                    (dashboard loaded (OfType Types.RDS)))).
  - apply (proj1 (proj2 (proj2 (summary_counts_and_costs
                                  (dashboard loaded (OfType Types.RDS)))))).
  - apply (proj1 (proj2 (proj2 (proj2 (summary_counts_and_costs
                           (dashboard loaded (OfType Types.RDS))))))).
    repeat constructor.
  - apply (proj2 (proj2 (proj2 (proj2 (summary_counts_and_costs
                           (dashboard [tagged_resource] ALL)))))
             get_event (provider [tagged_instance] [] [] []) []
             [tagged_resource]).
    + reflexivity.
    + intros r Hr. exact Hr.
Defined.

(** The tiles of five rows: two compute, one each of the others. *)
Example summary_of_loaded :
  Types.ResourceTypeCount.count
    <$> getResourceStats (dashboard loaded (OfType Types.RDS))
  = [2; 1; 1; 1].
Proof. reflexivity. Qed.

(** C8.  The visible rows depend on the list and the selection only: with
    "all" selected they are the list itself; with a type selected they are
    the rows of that type, all of them and no others, in the order they have
    in the list.  Computing them sends nothing. *)
Theorem filter_is_a_pure_view resources loading error :
  filteredResources
    {| resources := resources; loading := loading; error := error;
       selectedType := ALL |}
  = resources
  /\ forall T,
       filteredResources
         {| resources := resources; loading := loading; error := error;
            selectedType := OfType T |}
       = filter (fun r => Types.type r = T) resources
       /\ filter (fun r => Types.type r = T) resources `sublist_of` resources
       /\ forall r,
            r ∈ filter (fun r => Types.type r = T) resources
            <-> r ∈ resources /\ Types.type r = T.
Proof.
  split; [reflexivity|]. intros T. split; [reflexivity|]. split.
  - apply sublist_filter.
  - intros r. rewrite list_elem_of_filter. tauto.
Qed.

(** C9.  With no resources loaded, Export writes no file and sets the error
    message; with resources loaded it writes one workbook whose sheet is
    made from the whole loaded list, whatever type is selected, and leaves
    the state as it is. *)
Theorem export_needs_resources_and_writes_all loading error selectedType :
  exportToExcel
    {| resources := []; loading := loading; error := error;
       selectedType := selectedType |}
  = ({| resources := []; loading := loading;
        error := Some "No resources available to export";
        selectedType := selectedType |},
     [])
  /\ forall r rs,
       exportToExcel
         {| resources := r :: rs; loading := loading; error := error;
            selectedType := selectedType |}
       = ({| resources := r :: rs; loading := loading; error := error;
             selectedType := selectedType |},
          [WriteFile [("AWS Resources", XLSX.json_to_sheet (r :: rs))]
                     "aws-resources.xlsx"]).
Proof. split; reflexivity. Qed.

(** An export under an active filter: two rows are visible, five are
    written. *)
Example export_ignores_the_filter :
  length (filteredResources (dashboard loaded (OfType Types.EC2))) = 2
  /\ snd (exportToExcel (dashboard loaded (OfType Types.EC2)))
     = [WriteFile [("AWS Resources", XLSX.json_to_sheet loaded)]
                  "aws-resources.xlsx"].
Proof. split; reflexivity. Qed.

(** C10.  After a confirmed delete of id [x] that the aggregator
    acknowledged, the list is the old list without the rows whose id is [x]:
    no row with that id is left, of whatever type; every row with another id
    is still there; and the rows left are in the order they had. *)
Theorem acknowledged_delete_removes_every_match w st x :
  confirm w question = true ->
  Api.api_delete (network w) ("/resources/" +:+ x) = Js.Ok tt ->
  resources (fst (handleDelete w st x))
  = filter (fun r => Types.id r ≠ x) (resources st)
  /\ (forall r, r ∈ resources (fst (handleDelete w st x)) -> Types.id r ≠ x)
  /\ (forall r, r ∈ resources st -> Types.id r ≠ x ->
                r ∈ resources (fst (handleDelete w st x)))
  /\ resources (fst (handleDelete w st x)) `sublist_of` resources st.
Proof.
  intros Hyes Hok.
  assert (resources (fst (handleDelete w st x))
          = filter (fun r => Types.id r ≠ x) (resources st)) as ->.
  { unfold handleDelete, Api.deleteResource. rewrite Hyes, Hok.
    reflexivity. }
  split; [reflexivity|]. split; [|split].
  - intros r Hr. apply list_elem_of_filter in Hr. tauto.
  - intros r Hr Hne. apply list_elem_of_filter. tauto.
  - apply sublist_filter.
Qed.

Lemma acknowledged_delete_removes_every_match_witness :
  resources (fst (handleDelete agreeing (dashboard loaded ALL) "x-1"))
  = [ row "i-1" Types.EC2; row "db-1" Types.RDS; row "i-2" Types.EC2 ].
Proof.
  apply (proj1 (acknowledged_delete_removes_every_match
                  agreeing (dashboard loaded ALL) "x-1"
                  eq_refl eq_refl)).
Defined.

End DashboardProperties.

(** ** Further properties of the aggregator *)

Section HandlerBranches.
Import Aggregator.

Lemma handler_options event env settled :
  request_method event = Some "OPTIONS" ->
  handler event env settled
  = ({| statusCode := 200; headers := cors_headers; body := Text "" |}, []).
Proof.
  intros Hm. unfold handler, handler_try. rewrite Hm.
  rewrite !decide_False by discriminate.
  rewrite decide_True by reflexivity. reflexivity.
Qed.

Lemma handler_other event env settled :
  request_method event ≠ Some "GET" ->
  request_method event ≠ Some "DELETE" ->
  request_method event ≠ Some "OPTIONS" ->
  handler event env settled
  = ({| statusCode := 405;
        headers := error_headers;
        body := JSON_stringify (ErrorMessage "Method not allowed") |},
     []).
Proof.
  intros H1 H2 H3. unfold handler, handler_try.
  rewrite !decide_False by assumption. reflexivity.
Qed.

(** The reason [Promise.all] rejects with is the reason of one of the four
    promises. *)
Lemma Promise_all_rejected_inv {A B C D : Type} (settled : list Source)
    (p1 : promise A) (p2 : promise B) (p3 : promise C) (p4 : promise D) e :
  outcome (Promise_all settled p1 p2 p3 p4) = Js.Throw e ->
  rejection p1 = Some e \/ rejection p2 = Some e
    \/ rejection p3 = Some e \/ rejection p4 = Some e.
Proof.
  unfold Promise_all. cbn [outcome].
  match goal with |- context [omap ?f ?l] =>
    destruct (omap f l) as [|e' es] eqn:Hom end.
  - unfold rejection.
    destruct (outcome p1); cbn; [|intros [= ->]; auto].
    destruct (outcome p2); cbn; [|intros [= ->]; auto].
    destruct (outcome p3); cbn; [|intros [= ->]; auto].
    destruct (outcome p4); cbn; [discriminate|intros [= ->]; auto].
  - intros [= ->].
    match type of Hom with omap ?f ?l = _ =>
      assert (e ∈ omap f l) as Hin by (rewrite Hom; left) end.
    apply list_elem_of_omap in Hin. destruct Hin as ([] & _ & Hs); auto.
Qed.

(** Where a returned list comes from: the request was a GET, the four
    requests were answered, and the list is the four images in a row. *)
Lemma handler_listed event env settled listed :
  body (fst (handler event env settled)) = JSON_stringify (Resources listed) ->
  request_method event = Some "GET"
  /\ exists instances dbs volumes snapshots ec2Resources,
       describeInstances env stopped_instances = Js.Ok instances
       /\ describeDBInstances env = Js.Ok dbs
       /\ describeVolumes env available_volumes = Js.Ok volumes
       /\ describeSnapshots env own_snapshots = Js.Ok snapshots
       /\ Forall2 (fun instance r => ec2Resource env instance = Js.Ok r)
                  (Reservations instances ≫= Instances) ec2Resources
       /\ listed
          = ec2Resources
              ++ (rdsResource env <$>
                    filter (fun db => DBInstanceStatus db = "stopped")
                           (DBInstances dbs))
              ++ (ebsResource env <$> Volumes volumes)
              ++ (snapshotResource env <$> Snapshots snapshots).
Proof.
  destruct (decide (request_method event = Some "GET")) as [Hm|Hm].
  - rewrite (handler_get _ _ _ Hm). cbn [fst].
    destruct (outcome (Promise_all _ _ _ _ _))
      as [[[[ec2 rds] ebs] snapshots]|e] eqn:Hall; [|discriminate].
    apply Promise_all_fulfils_inv in Hall.
    destruct Hall as (H1 & H2 & H3 & H4).
    apply getEC2Resources_fulfilled in H1. destruct H1 as (i & Hi & Hec2).
    apply getRDSResources_fulfilled in H2. destruct H2 as (d & Hd & ->).
    apply getEBSResources_fulfilled in H3. destruct H3 as (v & Hv & ->).
    apply getSnapshots_fulfilled in H4. destruct H4 as (sn & Hs & ->).
    cbn. intros [= <-]. split; [exact Hm|].
    exists i, d, v, sn, ec2. repeat split; assumption.
  - unfold handler, handler_try. rewrite decide_False by exact Hm.
    repeat case_decide; cbn; try discriminate.
    destruct (Js.truthy _); discriminate.
Qed.

(** A property of everything the four normalisers produce is a property of
    every row of every returned list. *)
Lemma listed_resources_Forall (P : Types.AWSResource -> Prop)
    event env settled listed :
  (forall instance r, ec2Resource env instance = Js.Ok r -> P r) ->
  (forall db, DBInstanceStatus db = "stopped" -> P (rdsResource env db)) ->
  (forall volume, P (ebsResource env volume)) ->
  (forall snapshot, P (snapshotResource env snapshot)) ->
  body (fst (handler event env settled)) = JSON_stringify (Resources listed) ->
  Forall P listed.
Proof.
  intros Hec2 Hrds Hebs Hsnap Hbody.
  apply handler_listed in Hbody.
  destruct Hbody as (_ & i & d & v & sn & ec2 & _ & _ & _ & _ & H2 & ->).
  rewrite !Forall_app. repeat split.
  - induction H2 as [|instance r l k Hir _ IH]; constructor;
      [exact (Hec2 _ _ Hir) | exact IH].
  - apply Forall_fmap, Forall_forall. intros db Hdb.
    apply list_elem_of_filter in Hdb. apply Hrds, Hdb.
  - apply Forall_fmap, Forall_forall. intros volume _. apply Hebs.
  - apply Forall_fmap, Forall_forall. intros snapshot _. apply Hsnap.
Qed.

Lemma or_else_nonempty v d : d ≠ "" -> Js.or_else v d ≠ "".
Proof.
  intros Hd. unfold Js.or_else, Js.truthy.
  destruct v as [s|]; [|exact Hd].
  case_bool_decide; [exact Hd | assumption].
Qed.

End HandlerBranches.

Section AggregatorResponses.
Import Aggregator Samples MoreSamples.

(** The four branches of the handler, by the request's method. *)
Ltac by_method event env settled :=
  destruct (decide (request_method event = Some "GET")) as [Hget|Hget];
  [ rewrite (handler_get event env settled Hget)
  | destruct (decide (request_method event = Some "DELETE")) as [Hdel|Hdel];
    [ rewrite (handler_delete event env settled Hdel)
    | destruct (decide (request_method event = Some "OPTIONS")) as [Hopt|Hopt];
      [ rewrite (handler_options event env settled Hopt)
      | rewrite (handler_other event env settled Hget Hdel Hopt) ] ] ].

(** X1.  Whatever the event and the provider do, the handler answers 200,
    405 or 500, and every answer allows any origin and declares JSON: a 200
    carries the full set of CORS headers, a 405 or 500 the short set. *)
Theorem every_response_is_cross_origin event env settled :
  ((statusCode (fst (handler event env settled)) = 200%Z
    /\ headers (fst (handler event env settled)) = cors_headers)
   \/ ((statusCode (fst (handler event env settled)) = 405%Z
        \/ statusCode (fst (handler event env settled)) = 500%Z)
       /\ headers (fst (handler event env settled)) = error_headers))
  /\ ("Access-Control-Allow-Origin", "*")
       ∈ headers (fst (handler event env settled))
  /\ ("Content-Type", "application/json")
       ∈ headers (fst (handler event env settled)).
Proof.
  by_method event env settled; cbn [fst].
  - destruct (outcome (Promise_all _ _ _ _ _))
      as [[[[ec2 rds] ebs] snapshots]|e]; cbn;
      (split; [auto | split; repeat constructor]).
  - destruct (Js.truthy _); cbn;
      (split; [auto | split; repeat constructor]).
  - cbn. split; [auto | split; repeat constructor].
  - cbn. split; [auto | split; repeat constructor].
Qed.

(** X2.  The provider is queried on a GET and on nothing else: a GET sends
    the four describe requests, in source order, even when one of them
    fails; every other request sends none. *)
Theorem provider_is_queried_on_get_only event env settled :
  snd (handler event env settled)
  = if decide (request_method event = Some "GET") then list_requests else [].
Proof.
  by_method event env settled; reflexivity.
Qed.

(** X3.  The handler answers 500 exactly when a GET has a failed query, or
    a DELETE has no usable id. *)
Theorem server_error_iff event env settled :
  statusCode (fst (handler event env settled)) = 500%Z
  <-> (request_method event = Some "GET"
       /\ (is_Some (rejection (getEC2Resources env))
           \/ is_Some (rejection (getRDSResources env))
           \/ is_Some (rejection (getEBSResources env))
           \/ is_Some (rejection (getSnapshots env))))
      \/ (request_method event = Some "DELETE"
          /\ Js.truthy (pathParameters event ≫= PathParameters.id) = None).
Proof.
  by_method event env settled; cbn [fst].
  - destruct (outcome (Promise_all _ _ _ _ _))
      as [[[[ec2 rds] ebs] snapshots]|e] eqn:Hall; cbn.
    + apply Promise_all_fulfils_inv in Hall.
      destruct Hall as (H1 & H2 & H3 & H4).
      unfold rejection. rewrite H1, H2, H3, H4.
      split; [discriminate|].
      intros [(_ & [[? [=]]|[[? [=]]|[[? [=]]|[? [=]]]]])|(Hd & _)].
      congruence.
    + apply Promise_all_rejected_inv in Hall.
      split; [|reflexivity]. intros _. left. split; [assumption|].
      destruct Hall as [H|[H|[H|H]]]; rewrite H; eauto 6.
  - destruct (Js.truthy _) eqn:Hid; cbn.
    + split; [discriminate|]. intros [(Hg & _)|(_ & [=])]. congruence.
    + split; [|reflexivity]. intros _. right. split; [assumption|reflexivity].
  - cbn. split; [discriminate|]. intros [(Hg & _)|(Hd & _)]; congruence.
  - cbn. split; [discriminate|]. intros [(Hg & _)|(Hd & _)]; congruence.
Qed.

(** X4.  The handler answers 405 exactly when the method is none of GET,
    DELETE and OPTIONS, a missing method included; the comparison is by
    exact text. *)
Theorem method_not_allowed_iff event env settled :
  statusCode (fst (handler event env settled)) = 405%Z
  <-> request_method event ≠ Some "GET"
      /\ request_method event ≠ Some "DELETE"
      /\ request_method event ≠ Some "OPTIONS".
Proof.
  by_method event env settled; cbn [fst].
  - destruct (outcome (Promise_all _ _ _ _ _))
      as [[[[ec2 rds] ebs] snapshots]|e]; cbn;
      (split; [discriminate | intros (H & _); contradiction]).
  - destruct (Js.truthy _); cbn;
      (split; [discriminate | intros (_ & H & _); contradiction]).
  - cbn. split; [discriminate | intros (_ & _ & H); contradiction].
  - cbn. split; [intros _; auto | reflexivity].
Qed.

(** Lower-case and missing methods are not allowed. *)
Example lower_case_get_is_not_allowed :
  statusCode (fst (handler (rest_event "get") empty_account [])) = 405%Z
  /\ statusCode
       (fst (handler {| httpMethod := None; requestContext := None;
                        pathParameters := None |} empty_account []))
     = 405%Z.
Proof. split; reflexivity. Qed.

(** X5.  The two event formats are answered alike: a method given in
    [requestContext.http.method], with [httpMethod] missing or empty, is
    answered as the same method given in [httpMethod], where
    [requestContext] is then not looked at. *)
Theorem event_formats_agree m h context parameters env settled :
  m ≠ "" ->
  Js.truthy h = None ->
  handler {| httpMethod := Some m; requestContext := context;
             pathParameters := parameters |} env settled
  = handler {| httpMethod := h;
               requestContext :=
                 Some {| http := Some {| method := Some m |} |};
               pathParameters := parameters |} env settled.
Proof.
  intros Hm Hh.
  assert (forall e1 e2,
            request_method e1 = request_method e2 ->
            pathParameters e1 = pathParameters e2 ->
            handler e1 env settled = handler e2 env settled) as Hsame.
  { intros e1 e2 H1 H2. unfold handler, handler_try. rewrite H1, H2.
    reflexivity. }
  apply Hsame; [|reflexivity].
  unfold request_method, Js.or. cbn. rewrite Hh.
  rewrite bool_decide_false by exact Hm. reflexivity.
Qed.

Lemma event_formats_agree_witness :
  handler {| httpMethod := Some "DELETE"; requestContext := None;
             pathParameters := Some {| PathParameters.id := Some "v-9" |} |}
          small_account []
  = handler {| httpMethod := Some "";
               requestContext :=
                 Some {| http := Some {| method := Some "DELETE" |} |};
               pathParameters :=
                 Some {| PathParameters.id := Some "v-9" |} |}
            small_account [].
Proof.
  apply (event_formats_agree "DELETE" (Some "") None
           (Some {| PathParameters.id := Some "v-9" |}) small_account []).
  - discriminate.
  - reflexivity.
Defined.

(** X6.  An error body never carries an empty message: a 405 says
    "Method not allowed", and a 500 says what was thrown or, when that has
    no text, "Internal server error". *)
Theorem error_messages_are_never_empty event env settled message :
  body (fst (handler event env settled))
  = JSON_stringify (ErrorMessage message) ->
  message ≠ "".
Proof.
  by_method event env settled; cbn [fst].
  - destruct (outcome (Promise_all _ _ _ _ _))
      as [[[[ec2 rds] ebs] snapshots]|e]; cbn; [discriminate|].
    intros [= <-]. apply or_else_nonempty. discriminate.
  - destruct (Js.truthy _); cbn; [discriminate|].
    intros [= <-]. discriminate.
  - discriminate.
  - cbn. intros [= <-]. discriminate.
Qed.

Lemma error_messages_are_never_empty_witness :
  body (fst (handler get_event failing_silently []))
  = JSON_stringify (ErrorMessage "Internal server error")
  /\ "Internal server error" ≠ "".
Proof.
  split; [reflexivity|].
  apply (error_messages_are_never_empty get_event failing_silently []
           "Internal server error").
  reflexivity.
Defined.

(** X7.  When the queries that fail all fail for the same reason, as when
    only one of them fails, the 500 reports that reason, in whatever order
    the four queries settle. *)
Theorem common_failure_is_reported event env settled e :
  request_method event = Some "GET" ->
  is_Some (rejection (getEC2Resources env))
    \/ is_Some (rejection (getRDSResources env))
    \/ is_Some (rejection (getEBSResources env))
    \/ is_Some (rejection (getSnapshots env)) ->
  (forall e',
     rejection (getEC2Resources env) = Some e'
       \/ rejection (getRDSResources env) = Some e'
       \/ rejection (getEBSResources env) = Some e'
       \/ rejection (getSnapshots env) = Some e' ->
     e' = e) ->
  handler event env settled = (server_error e, list_requests).
Proof.
  intros Hm Hrej Hsame.
  destruct (handler_get_rejected event env settled Hm Hrej)
    as (e' & He' & ->).
  rewrite (Hsame e' He'). reflexivity.
Qed.

Lemma common_failure_is_reported_witness :
  handler get_event throttled_volumes [FromEBS; FromEC2]
  = ({| statusCode := 500;
        headers := error_headers;
        body := JSON_stringify (ErrorMessage "Rate exceeded") |},
     list_requests).
Proof.
  apply (common_failure_is_reported get_event throttled_volumes
           [FromEBS; FromEC2] (Js.Rejection (Some "Rate exceeded"))).
  - reflexivity.
  - right. right. left. eexists. reflexivity.
  - intros e' [H|[H|[H|H]]]; try discriminate H.
    injection H as <-. reflexivity.
Defined.

End AggregatorResponses.

Section ListedResources.
Import Aggregator Samples MoreSamples.

Lemma find_Name_first (before after : list Tag) (tag : Tag) :
  Forall (fun t => Key t ≠ Some "Name") before ->
  Key tag = Some "Name" ->
  find_Name (before ++ tag :: after) = Some tag.
Proof.
  intros Hbefore Htag. unfold find_Name.
  induction Hbefore as [|t before Ht _ IH]; cbn.
  - rewrite bool_decide_true by exact Htag. reflexivity.
  - rewrite bool_decide_false by exact Ht. exact IH.
Qed.

Lemma ec2Resource_id env instance r :
  ec2Resource env instance = Js.Ok r ->
  Types.id r = Instance.InstanceId instance.
Proof.
  unfold ec2Resource. destruct (Instance.Tags instance); cbn; [|discriminate].
  intros [= <-]. reflexivity.
Qed.

(** X8.  Every managed-database row of a returned list is in state
    "stopped": the database instances are filtered after the provider
    answered, whatever states it sent. *)
Theorem listed_databases_are_stopped event env settled listed :
  body (fst (handler event env settled)) = JSON_stringify (Resources listed) ->
  Forall (fun r => Types.type r = Types.RDS -> Types.state r = "stopped")
         listed.
Proof.
  apply listed_resources_Forall.
  - intros instance r Hr Htype. exfalso. revert Hr Htype.
    unfold ec2Resource. destruct (Instance.Tags instance); cbn;
      [|discriminate].
    intros [= <-]. discriminate.
  - intros db Hdb _. exact Hdb.
  - intros volume [=].
  - intros snapshot [=].
Qed.

Lemma listed_databases_are_stopped_witness :
  Forall (fun r => Types.type r = Types.RDS -> Types.state r = "stopped")
         (listing small_account).
Proof.
  apply (listed_databases_are_stopped get_event small_account []
           (listing small_account)).
  reflexivity.
Defined.

(** X9.  A returned list has one row per record the provider sent (per
    stopped record for databases), under the record's own id and in the
    provider's order: no record is dropped, repeated or moved. *)
Theorem listed_ids_follow_the_provider
    event env settled listed instances dbs volumes snapshots :
  body (fst (handler event env settled)) = JSON_stringify (Resources listed) ->
  describeInstances env stopped_instances = Js.Ok instances ->
  describeDBInstances env = Js.Ok dbs ->
  describeVolumes env available_volumes = Js.Ok volumes ->
  describeSnapshots env own_snapshots = Js.Ok snapshots ->
  Types.id <$> listed
  = (Instance.InstanceId <$> (Reservations instances ≫= Instances))
      ++ (DBInstanceIdentifier <$>
            filter (fun db => DBInstanceStatus db = "stopped")
                   (DBInstances dbs))
      ++ (Volume.VolumeId <$> Volumes volumes)
      ++ (Snapshot.SnapshotId <$> Snapshots snapshots).
Proof.
  intros Hbody Hi Hd Hv Hs. apply handler_listed in Hbody.
  destruct Hbody
    as (_ & i & d & v & sn & ec2 & Hi' & Hd' & Hv' & Hs' & H2 & ->).
  rewrite Hi in Hi'. rewrite Hd in Hd'. rewrite Hv in Hv'. rewrite Hs in Hs'.
  injection Hi' as <-. injection Hd' as <-.
  injection Hv' as <-. injection Hs' as <-.
  rewrite !fmap_app, <- !list_fmap_compose. f_equal.
  induction H2 as [|instance r l k Hir _ IH]; [reflexivity|].
  cbn. rewrite (ec2Resource_id _ _ _ Hir), IH. reflexivity.
Qed.

Lemma listed_ids_follow_the_provider_witness :
  Types.id <$> listing small_account = ["i-2"; "db-1"; "vol-2"; "snap-2"].
Proof.
  apply (listed_ids_follow_the_provider get_event small_account
           [FromRDS] (listing small_account)
           {| Reservations := [ {| Instances := [tagged_instance] |} ] |}
           {| DBInstances := [running_db; stopped_db] |}
           {| Volumes := [named_volume] |}
           {| Snapshots := [named_snapshot] |});
    reflexivity.
Defined.

(** X10.  The details of every row of a returned list hold the keys of the
    row's type and no others: the instance type for compute; the instance
    type and the engine for a database; the size and the volume type for a
    volume; the size for a snapshot. *)
Theorem listed_details_match_type event env settled listed :
  body (fst (handler event env settled)) = JSON_stringify (Resources listed) ->
  Forall (fun r =>
            let d := Types.details r in
            match Types.type r with
            | Types.EC2 =>
                is_Some (Types.instanceType d) /\ Types.engine d = None
                /\ Types.volumeSize d = None /\ Types.volumeType d = None
                /\ Types.snapshotSize d = None
            | Types.RDS =>
                is_Some (Types.instanceType d) /\ is_Some (Types.engine d)
                /\ Types.volumeSize d = None /\ Types.volumeType d = None
                /\ Types.snapshotSize d = None
            | Types.EBS =>
                Types.instanceType d = None /\ Types.engine d = None
                /\ is_Some (Types.volumeSize d)
                /\ is_Some (Types.volumeType d)
                /\ Types.snapshotSize d = None
            | Types.SNAPSHOT =>
                Types.instanceType d = None /\ Types.engine d = None
                /\ Types.volumeSize d = None /\ Types.volumeType d = None
                /\ is_Some (Types.snapshotSize d)
            end)
         listed.
Proof.
  apply listed_resources_Forall.
  - intros instance r. unfold ec2Resource.
    destruct (Instance.Tags instance); cbn; [|discriminate].
    intros [= <-]. cbn. eauto 10.
  - intros db _. cbn. eauto 10.
  - intros volume. cbn. eauto 10.
  - intros snapshot. cbn. eauto 10.
Qed.

Lemma listed_details_match_type_witness :
  Forall (fun r =>
            let d := Types.details r in
            match Types.type r with
            | Types.EC2 =>
                is_Some (Types.instanceType d) /\ Types.engine d = None
                /\ Types.volumeSize d = None /\ Types.volumeType d = None
                /\ Types.snapshotSize d = None
            | Types.RDS =>
                is_Some (Types.instanceType d) /\ is_Some (Types.engine d)
                /\ Types.volumeSize d = None /\ Types.volumeType d = None
                /\ Types.snapshotSize d = None
            | Types.EBS =>
                Types.instanceType d = None /\ Types.engine d = None
                /\ is_Some (Types.volumeSize d)
                /\ is_Some (Types.volumeType d)
                /\ Types.snapshotSize d = None
            | Types.SNAPSHOT =>
                Types.instanceType d = None /\ Types.engine d = None
                /\ Types.volumeSize d = None /\ Types.volumeType d = None
                /\ is_Some (Types.snapshotSize d)
            end)
         (listing small_account).
Proof.
  apply (listed_details_match_type get_event small_account []
           (listing small_account)).
  reflexivity.
Defined.

(** X11.  The first tag whose key is "Name" names the resource, when its
    value is not empty: tags before it with other keys, and any tags after
    it, do not matter.  This holds for compute, volume and snapshot
    records alike. *)
Theorem first_Name_tag_names_the_resource env before tag after n :
  Forall (fun t => Key t ≠ Some "Name") before ->
  Key tag = Some "Name" ->
  Value tag = Some n ->
  n ≠ "" ->
  (forall instance,
     Instance.Tags instance = Some (before ++ tag :: after) ->
     exists r, ec2Resource env instance = Js.Ok r /\ Types.name r = n)
  /\ (forall volume,
        Volume.Tags volume = Some (before ++ tag :: after) ->
        Types.name (ebsResource env volume) = n)
  /\ (forall snapshot,
        Snapshot.Tags snapshot = Some (before ++ tag :: after) ->
        Types.name (snapshotResource env snapshot) = n).
Proof.
  intros Hbefore Hkey Hvalue Hn.
  pose proof (find_Name_first before after tag Hbefore Hkey) as Hfind.
  assert (forall d, Js.or_else (Some tag ≫= Value) d = n) as Hor.
  { intros d. cbn. rewrite Hvalue. unfold Js.or_else. cbn.
    rewrite bool_decide_false by exact Hn. reflexivity. }
  repeat split.
  - intros instance Htags. unfold ec2Resource. rewrite Htags. cbn.
    eexists. split; [reflexivity|]. cbn. rewrite Hfind. apply Hor.
  - intros volume Htags. cbn. rewrite Htags. cbn. rewrite Hfind. apply Hor.
  - intros snapshot Htags. cbn. rewrite Htags. cbn. rewrite Hfind. apply Hor.
Qed.

Lemma first_Name_tag_names_the_resource_witness :
  Types.name (ebsResource empty_account named_volume) = "scratch".
Proof.
  apply (proj1 (proj2 (first_Name_tag_names_the_resource empty_account
           [ {| Key := Some "Owner"; Value := Some "data" |} ]
           {| Key := Some "Name"; Value := Some "scratch" |}
           [ {| Key := Some "Name"; Value := Some "later" |} ]
           "scratch"
           ltac:(repeat constructor; discriminate)
           eq_refl eq_refl ltac:(discriminate)))
         named_volume).
  reflexivity.
Defined.

(** X12.  No row of a returned list has an empty name unless its id is
    empty: a missing tag collection (volume, snapshot), a collection
    without a "Name" tag, and a "Name" tag without a value or with an empty
    one all leave the id as the name. *)
Theorem listed_names_are_never_empty event env settled listed :
  body (fst (handler event env settled)) = JSON_stringify (Resources listed) ->
  Forall (fun r => Types.id r ≠ "" -> Types.name r ≠ "") listed.
Proof.
  apply listed_resources_Forall.
  - intros instance r. unfold ec2Resource.
    destruct (Instance.Tags instance); cbn; [|discriminate].
    intros [= <-]. cbn. apply or_else_nonempty.
  - intros db _ H. exact H.
  - intros volume. cbn. apply or_else_nonempty.
  - intros snapshot. cbn. apply or_else_nonempty.
Qed.

Lemma listed_names_are_never_empty_witness :
  Forall (fun r => Types.id r ≠ "" -> Types.name r ≠ "")
         (listing (provider [tagged_instance] [stopped_db]
                            [untagged_volume] [untagged_snapshot])).
Proof.
  apply (listed_names_are_never_empty get_event
           (provider [tagged_instance] [stopped_db]
                     [untagged_volume] [untagged_snapshot])
           []
           (listing (provider [tagged_instance] [stopped_db]
                              [untagged_volume] [untagged_snapshot]))).
  reflexivity.
Defined.

(** X13.  Every row of a returned list carries the aggregator's own
    configured region, the same for all rows, whatever the records say. *)
Theorem listed_regions_are_the_aggregators event env settled listed :
  body (fst (handler event env settled)) = JSON_stringify (Resources listed) ->
  Forall (fun r => Types.region r = AWS_REGION env) listed.
Proof.
  apply listed_resources_Forall.
  - intros instance r. unfold ec2Resource.
    destruct (Instance.Tags instance); cbn; [|discriminate].
    intros [= <-]. reflexivity.
  - reflexivity.
  - reflexivity.
  - reflexivity.
Qed.

Lemma listed_regions_are_the_aggregators_witness :
  Forall (fun r => Types.region r = Some "eu-west-1") (listing small_account).
Proof.
  apply (listed_regions_are_the_aggregators get_event small_account []
           (listing small_account)).
  reflexivity.
Defined.

End ListedResources.

(** ** Further properties of the dashboard *)

Section Loading.
Import ApiFetch AppView Samples MoreSamples.

(** What [fetchResources] makes of a rejected request. *)
Lemma fetchResources_rejected net err :
  api_get net "/resources" = Rejected err ->
  fetchResources net
  = (Some {| ResourceResponse.resources := Some [];
             ResourceResponse.error :=
               Some (Js.or_else
                       ((AxiosError.response err ≫= AxiosError.data)
                          ≫= AxiosError.error)
                       "Failed to fetch resources") |},
     [GET "/resources"]).
Proof. intros Hrej. unfold fetchResources. rewrite Hrej. reflexivity. Qed.

(** X14.  A rejected request never escapes [fetchResources] and never
    comes back without a message: the answer is an empty list with the
    server's error text when the rejection carries a non-empty one, and
    with "Failed to fetch resources" otherwise.  One GET for "/resources"
    was sent. *)
Theorem rejected_fetch_has_a_message net err :
  api_get net "/resources" = Rejected err ->
  exists message,
    fetchResources net
    = (Some {| ResourceResponse.resources := Some [];
               ResourceResponse.error := Some message |},
       [GET "/resources"])
    /\ message ≠ ""
    /\ match Js.truthy ((AxiosError.response err ≫= AxiosError.data)
                          ≫= AxiosError.error) with
       | Some sent => message = sent
       | None => message = "Failed to fetch resources"
       end.
Proof.
  intros Hrej. rewrite (fetchResources_rejected net err Hrej).
  eexists. split; [reflexivity|]. split.
  - apply or_else_nonempty. discriminate.
  - unfold Js.or_else. destruct (Js.truthy _); reflexivity.
Qed.

Lemma rejected_fetch_has_a_message_witness :
  exists message,
    fetchResources answering_500
    = (Some {| ResourceResponse.resources := Some [];
               ResourceResponse.error := Some message |},
       [GET "/resources"])
    /\ message ≠ ""
    /\ message = "Rate exceeded".
Proof.
  apply (rejected_fetch_has_a_message answering_500
           {| AxiosError.response :=
                Some {| AxiosError.data :=
                          Some {| AxiosError.error :=
                                    Some "Rate exceeded" |} |} |}).
  reflexivity.
Defined.

(** X15.  A load whose request is rejected ends with no rows, the spinner
    off, the selection as it was, and a non-empty error in the banner,
    whatever the dashboard held before. *)
Theorem rejected_load_clears_the_rows net err st :
  api_get net "/resources" = Rejected err ->
  exists message,
    message ≠ ""
    /\ loadResources net st
       = ({| App.resources := []; App.loading := false;
             App.error := Some message;
             App.selectedType := App.selectedType st |},
          [GET "/resources"])
    /\ errorBanner (fst (loadResources net st)) = Some message
    /\ mainView (fst (loadResources net st)) = NoResourcesFound.
Proof.
  intros Hrej.
  pose proof (fetchResources_rejected net err Hrej) as Hfetch.
  set (message := Js.or_else
                    ((AxiosError.response err ≫= AxiosError.data)
                       ≫= AxiosError.error)
                    "Failed to fetch resources") in Hfetch.
  assert (message ≠ "") as Hne
    by (apply or_else_nonempty; discriminate).
  assert (Js.truthy (Some message) = Some message) as Htruthy.
  { cbn. rewrite bool_decide_false by exact Hne. reflexivity. }
  assert (loadResources net st
          = ({| App.resources := []; App.loading := false;
                App.error := Some message;
                App.selectedType := App.selectedType st |},
             [GET "/resources"])) as Hload.
  { unfold loadResources. rewrite Hfetch. cbn [ResourceResponse.error].
    rewrite Htruthy. reflexivity. }
  exists message. rewrite Hload. cbn [fst].
  split; [exact Hne|]. split; [reflexivity|]. split.
  - unfold errorBanner. cbn [App.error]. exact Htruthy.
  - unfold mainView, App.filteredResources. cbn.
    destruct (App.selectedType st); reflexivity.
Qed.

Lemma rejected_load_clears_the_rows_witness :
  exists message,
    message ≠ ""
    /\ loadResources offline stale
       = ({| App.resources := []; App.loading := false;
             App.error := Some message;
             App.selectedType := App.OfType Types.EBS |},
          [GET "/resources"])
    /\ errorBanner (fst (loadResources offline stale)) = Some message
    /\ mainView (fst (loadResources offline stale)) = NoResourcesFound.
Proof.
  apply (rejected_load_clears_the_rows offline
           {| AxiosError.response := None |} stale).
  reflexivity.
Defined.

(** X16.  A load that is answered with a body that is not [null] and has
    no error replaces the rows by the rows of the answer (none when the
    answer has no list), clears an error left from before, turns the
    spinner off and keeps the selection. *)
Theorem answered_load_replaces_the_rows net data st :
  api_get net "/resources" = Fulfilled (Some data) ->
  Js.truthy (ResourceResponse.error data) = None ->
  loadResources net st
  = ({| App.resources := default [] (ResourceResponse.resources data);
        App.loading := false;
        App.error := None;
        App.selectedType := App.selectedType st |},
     [GET "/resources"])
  /\ errorBanner (fst (loadResources net st)) = None.
Proof.
  intros Hok Herr.
  assert (loadResources net st
          = ({| App.resources := default [] (ResourceResponse.resources data);
                App.loading := false;
                App.error := None;
                App.selectedType := App.selectedType st |},
             [GET "/resources"])) as Hload.
  { unfold loadResources, fetchResources. rewrite Hok, Herr. reflexivity. }
  rewrite Hload. split; reflexivity.
Qed.

Lemma answered_load_replaces_the_rows_witness :
  loadResources answering_200 stale
  = ({| App.resources := loaded; App.loading := false; App.error := None;
        App.selectedType := App.OfType Types.EBS |},
     [GET "/resources"])
  /\ errorBanner (fst (loadResources answering_200 stale)) = None.
Proof.
  apply (answered_load_replaces_the_rows answering_200
           {| ResourceResponse.resources := Some loaded;
              ResourceResponse.error := None |} stale);
    reflexivity.
Defined.

(** X26.  A load that is answered with [null] is a failed load: reading
    the answer's error throws, the [catch] clause of [loadResources] runs,
    and the load ends with no rows, the error "Failed to fetch resources",
    the spinner off and the selection as it was. *)
Theorem null_answer_is_a_failed_load net st :
  api_get net "/resources" = Fulfilled None ->
  loadResources net st
  = ({| App.resources := []; App.loading := false;
        App.error := Some "Failed to fetch resources";
        App.selectedType := App.selectedType st |},
     [GET "/resources"])
  /\ errorBanner (fst (loadResources net st))
     = Some "Failed to fetch resources".
Proof.
  intros Hnull.
  assert (loadResources net st
          = ({| App.resources := []; App.loading := false;
                App.error := Some "Failed to fetch resources";
                App.selectedType := App.selectedType st |},
             [GET "/resources"])) as Hload.
  { unfold loadResources, fetchResources. rewrite Hnull. reflexivity. }
  rewrite Hload. split; reflexivity.
Qed.

Lemma null_answer_is_a_failed_load_witness :
  loadResources answering_null (dashboard loaded App.ALL)
  = ({| App.resources := []; App.loading := false;
        App.error := Some "Failed to fetch resources";
        App.selectedType := App.ALL |},
     [GET "/resources"])
  /\ errorBanner (fst (loadResources answering_null
                                     (dashboard loaded App.ALL)))
     = Some "Failed to fetch resources".
Proof.
  apply (null_answer_is_a_failed_load answering_null
           (dashboard loaded App.ALL)).
  reflexivity.
Defined.

(** X17.  An answer that carries a non-empty error is a failed load even
    when it was delivered as a success and even when it carries rows: the
    rows are dropped and the error is shown. *)
Theorem answered_error_drops_the_rows net data message st :
  api_get net "/resources" = Fulfilled (Some data) ->
  ResourceResponse.error data = Some message ->
  message ≠ "" ->
  loadResources net st
  = ({| App.resources := []; App.loading := false;
        App.error := Some message;
        App.selectedType := App.selectedType st |},
     [GET "/resources"]).
Proof.
  intros Hok Herr Hne. unfold loadResources, fetchResources.
  rewrite Hok, Herr. cbn.
  rewrite bool_decide_false by exact Hne. reflexivity.
Qed.

Lemma answered_error_drops_the_rows_witness :
  loadResources answering_partial (dashboard [] App.ALL)
  = ({| App.resources := []; App.loading := false;
        App.error := Some "partial"; App.selectedType := App.ALL |},
     [GET "/resources"]).
Proof.
  apply (answered_error_drops_the_rows answering_partial
           {| ResourceResponse.resources := Some loaded;
              ResourceResponse.error := Some "partial" |}
           "partial" (dashboard [] App.ALL)).
  - reflexivity.
  - reflexivity.
  - discriminate.
Defined.

(** X18.  A load keeps nothing of what was shown before except the
    selection: two dashboards with the same selection are the same
    dashboard after a load from the same network. *)
Theorem load_keeps_the_selection_only net st1 st2 :
  App.selectedType st1 = App.selectedType st2 ->
  loadResources net st1 = loadResources net st2.
Proof.
  intros Hsel. unfold loadResources.
  destruct (fetchResources net) as [[response|] sent];
    [destruct (Js.truthy (ResourceResponse.error response))|];
    unfold App.setResources, App.setError, setLoading;
    cbn [App.resources App.loading App.error App.selectedType];
    rewrite Hsel; reflexivity.
Qed.

Lemma load_keeps_the_selection_only_witness :
  loadResources answering_200 stale
  = loadResources answering_200 (dashboard loaded (App.OfType Types.EBS)).
Proof.
  apply (load_keeps_the_selection_only answering_200 stale
           (dashboard loaded (App.OfType Types.EBS))).
  reflexivity.
Defined.

End Loading.

Section Rows.
Import App AppView Samples MoreSamples.

Lemma filter_comm {X : Type} (P Q : X -> Prop)
    `{forall x, Decision (P x)} `{forall x, Decision (Q x)} (l : list X) :
  filter P (filter Q l) = filter Q (filter P l).
Proof.
  induction l as [|x l IH]; [reflexivity|].
  rewrite !filter_cons.
  destruct (decide (P x)), (decide (Q x)); rewrite ?filter_cons;
    repeat case_decide; try contradiction; congruence.
Qed.

(** What an acknowledged delete leaves. *)
Lemma handleDelete_acknowledged w st x :
  confirm w question = true ->
  Api.api_delete (network w) ("/resources/" +:+ x) = Js.Ok tt ->
  handleDelete w st x
  = (setResources st (filter (fun r => Types.id r ≠ x) (resources st)),
     [Confirm question; Http (Api.DELETE ("/resources/" +:+ x))]).
Proof.
  intros Hyes Hok. unfold handleDelete, Api.deleteResource.
  rewrite Hyes, Hok. reflexivity.
Qed.

(** X19.  A confirmed delete that the aggregator does not acknowledge
    removes nothing: the rows and the selection stay, the error becomes
    "Failed to delete resource", and the one request was sent. *)
Theorem unacknowledged_delete_keeps_the_rows w st x e :
  confirm w question = true ->
  Api.api_delete (network w) ("/resources/" +:+ x) = Js.Throw e ->
  handleDelete w st x
  = ({| resources := resources st; loading := loading st;
        error := Some "Failed to delete resource";
        selectedType := selectedType st |},
     [Confirm question; Http (Api.DELETE ("/resources/" +:+ x))]).
Proof.
  intros Hyes Hfail. unfold handleDelete, Api.deleteResource.
  rewrite Hyes, Hfail. reflexivity.
Qed.

Lemma unacknowledged_delete_keeps_the_rows_witness :
  handleDelete unanswered (dashboard loaded ALL) "x-1"
  = ({| resources := loaded; loading := false;
        error := Some "Failed to delete resource";
        selectedType := ALL |},
     [Confirm question; Http (Api.DELETE "/resources/x-1")]).
Proof.
  apply (unacknowledged_delete_keeps_the_rows unanswered
           (dashboard loaded ALL) "x-1"
           (Js.Rejection (Some "Network Error")));
    reflexivity.
Defined.

(** X20.  Delete and filter commute: after an acknowledged delete the
    visible rows are the rows that were visible, without those of the
    deleted id; the selection, the error and the spinner are untouched. *)
Theorem delete_commutes_with_filter w st x :
  confirm w question = true ->
  Api.api_delete (network w) ("/resources/" +:+ x) = Js.Ok tt ->
  filteredResources (fst (handleDelete w st x))
  = filter (fun r => Types.id r ≠ x) (filteredResources st)
  /\ selectedType (fst (handleDelete w st x)) = selectedType st
  /\ error (fst (handleDelete w st x)) = error st
  /\ loading (fst (handleDelete w st x)) = loading st.
Proof.
  intros Hyes Hok. rewrite (handleDelete_acknowledged w st x Hyes Hok).
  cbn [fst]. repeat split.
  unfold filteredResources, setResources. cbn.
  destruct (selectedType st); [reflexivity|]. apply filter_comm.
Qed.

Lemma delete_commutes_with_filter_witness :
  filteredResources
    (fst (handleDelete agreeing (dashboard loaded (OfType Types.EBS)) "x-1"))
  = []
  /\ selectedType
       (fst (handleDelete agreeing (dashboard loaded (OfType Types.EBS))
                          "x-1"))
     = OfType Types.EBS
  /\ error (fst (handleDelete agreeing (dashboard loaded (OfType Types.EBS))
                              "x-1"))
     = None
  /\ loading
       (fst (handleDelete agreeing (dashboard loaded (OfType Types.EBS))
                          "x-1"))
     = false.
Proof.
  apply (delete_commutes_with_filter agreeing
           (dashboard loaded (OfType Types.EBS)) "x-1");
    reflexivity.
Defined.

(** X21.  Deleting the same id again, acknowledged again, changes no row:
    the second removal finds nothing to remove. *)
Theorem repeated_delete_changes_no_row w st x :
  confirm w question = true ->
  Api.api_delete (network w) ("/resources/" +:+ x) = Js.Ok tt ->
  fst (handleDelete w (fst (handleDelete w st x)) x)
  = fst (handleDelete w st x).
Proof.
  intros Hyes Hok. rewrite !(handleDelete_acknowledged w _ x Hyes Hok).
  cbn [fst]. unfold setResources. cbn. f_equal.
  apply list_filter_filter_l. auto.
Qed.

Lemma repeated_delete_changes_no_row_witness :
  fst (handleDelete agreeing
         (fst (handleDelete agreeing (dashboard loaded ALL) "x-1")) "x-1")
  = fst (handleDelete agreeing (dashboard loaded ALL) "x-1").
Proof.
  apply (repeated_delete_changes_no_row agreeing (dashboard loaded ALL)
           "x-1");
    reflexivity.
Defined.

(** X22.  A tile's count is the number of rows shown once the tile is
    clicked, whatever was selected before: the tiles and the table count
    the same rows. *)
Theorem tile_count_is_the_rows_behind_it st tile :
  tile ∈ getResourceStats st ->
  Types.ResourceTypeCount.count tile
  = length (filteredResources
              (setSelectedType st
                 (OfType (Types.ResourceTypeCount.type tile)))).
Proof.
  unfold getResourceStats. intros Hin.
  apply list_elem_of_fmap in Hin. destruct Hin as (type & -> & _).
  reflexivity.
Qed.

Lemma tile_count_is_the_rows_behind_it_witness :
  2 = length (filteredResources
                (setSelectedType (dashboard loaded (OfType Types.RDS))
                                 (OfType Types.EC2))).
Proof.
  apply (tile_count_is_the_rows_behind_it
           (dashboard loaded (OfType Types.RDS))
           {| Types.ResourceTypeCount.type := Types.EC2;
              Types.ResourceTypeCount.count := 2;
              Types.ResourceTypeCount.totalCost := 0%float |}).
  left.
Defined.

(** X23.  A click on the export button never changes the dashboard: the
    button is disabled exactly when the export would set its error, so a
    click either writes the one file with all rows or does nothing. *)
Theorem export_click_never_sets_the_error st :
  fst (clickExport st) = st
  /\ snd (clickExport st)
     = if exportDisabled st then []
       else [WriteFile
               [("AWS Resources", XLSX.json_to_sheet (resources st))]
               "aws-resources.xlsx"].
Proof.
  unfold clickExport, exportDisabled, exportToExcel.
  case_bool_decide as Hlen.
  - split; reflexivity.
  - rewrite decide_False by exact Hlen. split; reflexivity.
Qed.

End Rows.

Section DetailsCell.
Import Aggregator AppView Samples MoreSamples.

(** X25.  The Details cell of a row that the aggregator listed never
    renders an undefined value: the cell reads, for each type, only keys
    that the aggregator set for that type.  A database, volume or snapshot
    row has exactly one span; a compute row has one unless its instance
    type is empty. *)
Theorem details_cell_reads_what_was_set event env settled listed :
  body (fst (handler event env settled)) = JSON_stringify (Resources listed) ->
  Forall (fun r =>
            Forall (Forall (fun child => undefinedChild child = false))
                   (detailsCell r)
            /\ (Types.type r ≠ Types.EC2 -> length (detailsCell r) = 1))
         listed.
Proof.
  apply listed_resources_Forall.
  - intros instance r. unfold ec2Resource.
    destruct (Instance.Tags instance); cbn; [|discriminate].
    intros [= <-]. split; [|intros H; contradiction H; reflexivity].
    unfold detailsCell. cbn.
    case_bool_decide; cbn; repeat constructor.
  - intros db _. split; [|reflexivity]. repeat constructor.
  - intros volume. split; [|reflexivity]. repeat constructor.
  - intros snapshot. split; [|reflexivity]. repeat constructor.
Qed.

Lemma details_cell_reads_what_was_set_witness :
  Forall (fun r =>
            Forall (Forall (fun child => undefinedChild child = false))
                   (detailsCell r)
            /\ (Types.type r ≠ Types.EC2 -> length (detailsCell r) = 1))
         (listing small_account).
Proof.
  apply (details_cell_reads_what_was_set get_event small_account []
           (listing small_account)).
  reflexivity.
Defined.

(** The cells of the four rows of [small_account]. *)
Example details_cells_of_small_account :
  detailsCell <$> listing small_account
  = [ [[Literal "Instance: "; StringValue (Some "m5.large")]];
      [[StringValue (Some "postgres"); Literal " (";
        StringValue (Some "db.t3.micro"); Literal ")"]];
      [[NumberValue (Some 8%Z); Literal "GB (";
        StringValue (Some "gp3"); Literal ")"]];
      [[NumberValue (Some 8%Z); Literal "GB"]] ].
Proof. reflexivity. Qed.

End DetailsCell.
